(** * A shallow embedding of [assess_data_quality] (src/data_quality.py)

    The table handed to the engine is a pandas DataFrame: named columns, each
    with a dtype ([int64], [float64] or [object]) and one cell per row.  A cell
    is missing ([NaN]/[None]) or holds a number or a string.  Numbers are
    modelled as exact rationals: the floating-point rounding of the Python
    arithmetic and IEEE infinities are not modelled.

    The library primitives the engine calls on strings and values
    ([str] of a number, [float(str(v))], [pd.to_datetime] and the year regex
    search) are gathered in the class [PyPrims]; every theorem below holds
    for every instance. *)

From Stdlib Require Import String Ascii.
From Stdlib Require Import List Bool Arith ZArith Lia.
From Stdlib Require Import QArith Qminmax Lqa.
From Stdlib Require Import Permutation.
Import ListNotations.
Open Scope list_scope.

(** ** Option monad: a [None] result is a Python exception. *)

Notation "'let*' x := m 'in' k" :=
  (match m with Some x => k | None => None end)
  (at level 200, x name, m at level 100, k at level 200).

(** ** Data model *)

Inductive kind := KInt | KFloat | KText.

(** [str(df[col].dtype)] *)
Definition dtype_name (k : kind) : string :=
  match k with
  | KInt => "int64"
  | KFloat => "float64"
  | KText => "object"
  end.

Definition is_numeric (k : kind) : bool :=
  match k with KInt | KFloat => true | KText => false end.

Definition is_object (k : kind) : bool :=
  match k with KText => true | _ => false end.

Inductive value := VNum (q : Q) | VStr (s : string).

(** [None] is a missing cell. *)
Definition cell := option value.

(** A DataFrame: the column headers (name and dtype) and the rows. *)
Record table := mk_table {
  columns : list (string * kind);
  rows : list (list cell)
}.

(** [df[col]] for the column at position [j]. *)
Record column := mk_column {
  cname : string;
  ckind : kind;
  cvals : list cell
}.

Definition col_cells (t : table) (j : nat) : list cell :=
  map (fun r => nth j r None) (rows t).

Fixpoint columns_from (t : table) (j : nat) (hs : list (string * kind))
  : list column :=
  match hs with
  | [] => []
  | (n, k) :: hs' => mk_column n k (col_cells t j) :: columns_from t (S j) hs'
  end.

(** [for col in df.columns: ... df[col] ...] *)
Definition df_columns (t : table) : list column := columns_from t 0 (columns t).

(** No label of [df.columns] names two columns.  For a label that does,
    [df[col]] is a DataFrame rather than a Series, and a DataFrame has no
    [.dtype]. *)
Fixpoint labels_distinct (names : list string) : bool :=
  match names with
  | [] => true
  | n :: ns => negb (existsb (String.eqb n) ns) && labels_distinct ns
  end.

(** ** Library primitives *)

Class PyPrims := {
  (** [str(x)] for a number *)
  py_str_num : Q -> string;
  (** [float(s)] succeeds *)
  py_float_ok : string -> bool;
  (** [pd.to_datetime(values, errors='coerce')]: [None] when it raises,
      otherwise the year of each value that parsed *)
  py_to_datetime_years : list string -> option (list (option Z));
  (** [re.search(r'\b(19|20)\d{2}\b', s)] read back with [int(...)] *)
  py_year_search : string -> option Z
}.

(** ** String helpers

    Strings are UTF-8 byte strings.  [str.lower()] is modelled on ASCII
    letters; the keywords the engine looks for are ASCII or Arabic, and
    Arabic letters have no case. *)

Definition ascii_lower (c : ascii) : ascii :=
  let n := nat_of_ascii c in
  if (65 <=? n) && (n <=? 90) then ascii_of_nat (n + 32) else c.

(** [s.lower()] *)
Fixpoint lower (s : string) : string :=
  match s with
  | EmptyString => EmptyString
  | String c r => String (ascii_lower c) (lower r)
  end.

(** [needle in s] *)
Fixpoint contains (needle s : string) : bool :=
  prefix needle s ||
  match s with
  | EmptyString => false
  | String _ r => contains needle r
  end.

(** [len(s)] counts code points: the bytes that do not continue a UTF-8
    sequence. *)
Definition is_cont_byte (c : ascii) : bool :=
  let n := nat_of_ascii c in (128 <=? n) && (n <? 192).

Fixpoint py_len (s : string) : nat :=
  match s with
  | EmptyString => 0
  | String c r => (if is_cont_byte c then 0 else 1) + py_len r
  end.

(** *** [re.match(r'^[a-zA-Z0-9._%+-]+@[a-zA-Z0-9.-]+\.[a-zA-Z]{2,}$', s)]

    The local part has no ['@'], so the ['@'] of a match is the first one;
    the top-level domain has no ['.'], so its dot is the last one.  Python's
    [$] also matches just before a final newline. *)

Definition in_range (lo hi : nat) (c : ascii) : bool :=
  let n := nat_of_ascii c in (lo <=? n) && (n <=? hi).

Definition is_alpha (c : ascii) : bool := in_range 65 90 c || in_range 97 122 c.

Definition is_alnum (c : ascii) : bool := is_alpha c || in_range 48 57 c.

Definition is_local_char (c : ascii) : bool :=
  is_alnum c || existsb (Ascii.eqb c) ["."; "_"; "%"; "+"; "-"]%char.

Definition is_domain_char (c : ascii) : bool :=
  is_alnum c || Ascii.eqb c "." || Ascii.eqb c "-".

Fixpoint split_first (sep : ascii) (l : list ascii)
  : option (list ascii * list ascii) :=
  match l with
  | [] => None
  | c :: r =>
      if Ascii.eqb c sep then Some ([], r)
      else match split_first sep r with
           | Some (a, b) => Some (c :: a, b)
           | None => None
           end
  end.

Definition split_last (sep : ascii) (l : list ascii)
  : option (list ascii * list ascii) :=
  match split_first sep (rev l) with
  | Some (a, b) => Some (rev b, rev a)
  | None => None
  end.

Definition is_nil {A} (l : list A) : bool :=
  match l with [] => true | _ => false end.

Definition email_body (l : list ascii) : bool :=
  match split_first "@" l with
  | Some (loc, dom) =>
      negb (is_nil loc) && forallb is_local_char loc &&
      match split_last "." dom with
      | Some (d1, tld) =>
          negb (is_nil d1) && forallb is_domain_char d1 &&
          (2 <=? length tld) && forallb is_alpha tld
      | None => false
      end
  | None => false
  end.

Definition email_match (s : string) : bool :=
  let l := list_ascii_of_string s in
  email_body l ||
  match rev l with
  | c :: r => Ascii.eqb c "010"%char && email_body (rev r)
  | [] => false
  end.

Section Engine.
Context `{Py : PyPrims}.

(** [str(v)] *)
Definition py_str (v : value) : string :=
  match v with VNum q => py_str_num q | VStr s => s end.

(** [series.dropna()] *)
Definition dropna (cs : list cell) : list value :=
  flat_map (fun c => match c with Some v => [v] | None => [] end) cs.

(** The numbers of a numeric column (its cells are all [VNum]). *)
Definition num_of (v : value) : Q :=
  match v with VNum q => q | VStr _ => 0 end.

Definition count_if {A} (p : A -> bool) (l : list A) : nat :=
  length (filter p l).

Definition n2q (n : nat) : Q := inject_Z (Z.of_nat n).

(** [series.isnull().sum()] *)
Definition count_missing (cs : list cell) : nat :=
  count_if (fun c => match c with None => true | Some _ => false end) cs.

(** [x < y] on numbers. *)
Definition q_lt (x y : Q) : bool := negb (Qle_bool y x).

Definition q_sum (l : list Q) : Q := fold_right Qplus 0 l.

(** Python's [a / b]: division by zero raises. *)
Definition py_div (a b : Q) : option Q :=
  if Qeq_bool b 0 then None else Some (a / b).

(** *** 2. Consistency *)

(** Mixed-type check of an [object] column (lines 84-98). *)
Definition col_type_inconsistent (c : column) : bool :=
  if is_object (ckind c) then
    match dropna (cvals c) with
    | [] => false
    | nn =>
        let head := firstn 100 nn in
        let numeric_count := count_if (fun v => py_float_ok (py_str v)) head in
        q_lt (n2q (length head) * (2#10)) (n2q numeric_count) &&
        q_lt (n2q numeric_count) (n2q (length head) * (8#10))
    end
  else false.

(** Email-format check, run on every column (lines 101-108). *)
Definition col_email_issues (c : column) : nat :=
  match map py_str (dropna (cvals c)) with
  | [] => 0
  | nn =>
      if contains "@" (hd EmptyString nn)
      then count_if (fun v => negb (email_match v)) nn
      else 0
  end.

(** *** 3. Uniqueness *)

Definition value_eqb (a b : value) : bool :=
  match a, b with
  | VNum x, VNum y => Qeq_bool x y
  | VStr x, VStr y => String.eqb x y
  | _, _ => false
  end.

Definition cell_eqb (a b : cell) : bool :=
  match a, b with
  | None, None => true
  | Some x, Some y => value_eqb x y
  | _, _ => false
  end.

Fixpoint row_eqb (r1 r2 : list cell) : bool :=
  match r1, r2 with
  | [], [] => true
  | a :: r1', b :: r2' => cell_eqb a b && row_eqb r1' r2'
  | _, _ => false
  end.

(** [series.duplicated().sum()] with [keep='first']: the elements equal to
    an earlier one. *)
Fixpoint dups_from {A} (eqb : A -> A -> bool) (seen l : list A) : nat :=
  match l with
  | [] => 0
  | x :: r =>
      (if existsb (eqb x) seen then 1 else 0) + dups_from eqb (x :: seen) r
  end.

Definition duplicated_sum {A} (eqb : A -> A -> bool) (l : list A) : nat :=
  dups_from eqb [] l.

(** The rows as the DataFrame sees them, one cell per column. *)
Definition df_rows (t : table) : list (list cell) :=
  map (fun r => map (fun j => nth j r None) (seq 0 (length (columns t))))
      (rows t).

(** [df.duplicated().sum()]; pandas returns an empty series for an empty
    frame (no rows or no columns). *)
Definition df_duplicated_sum (t : table) : nat :=
  match columns t, rows t with
  | [], _ | _, [] => 0
  | _, _ => duplicated_sum row_eqb (df_rows t)
  end.

(** Lines 118-121. *)
Definition col_duplicate_values (c : column) : nat :=
  if is_object (ckind c) then duplicated_sum cell_eqb (cvals c) else 0.

(** *** 4. Validity *)

(** Numbers are finite here: no value equals [float('inf')]. *)
Definition is_inf (v : value) : bool := false.

Definition validity_keywords : list string := ["age"; "count"; "quantity"]%string.

(** Lines 129-152. *)
Definition col_validity_issues (c : column) : nat :=
  match dropna (cvals c) with
  | [] => 0
  | nn =>
      (if is_numeric (ckind c) then count_if is_inf nn else 0) +
      (if is_numeric (ckind c) then
         if existsb (fun k => contains k (lower (cname c))) validity_keywords
         then count_if (fun v => q_lt (num_of v) 0) nn
         else 0
       else 0) +
      (if is_object (ckind c) then
         let lens := map (fun v => py_len (py_str v)) nn in
         if 1000 <? list_max lens then count_if (fun n => 1000 <? n) lens
         else 0
       else 0)
  end.

(** *** 5. Accuracy *)

Fixpoint insert_q (x : Q) (l : list Q) : list Q :=
  match l with
  | [] => [x]
  | y :: r => if Qle_bool x y then x :: l else y :: insert_q x r
  end.

Fixpoint sort_q (l : list Q) : list Q :=
  match l with
  | [] => []
  | x :: r => insert_q x (sort_q r)
  end.

(** [series.quantile(num/den)] with pandas' default linear interpolation. *)
Definition quantile (xs : list Q) (num den : nat) : Q :=
  let s := sort_q xs in
  let pos := ((length s - 1) * num)%nat in
  let lo := (pos / den)%nat in
  let frac := n2q (pos mod den) / n2q den in
  let a := nth lo s 0 in
  let b := nth (S lo) s 0 in
  a + frac * (b - a).

(** Lines 161-171. *)
Definition col_accuracy_issues (c : column) : nat :=
  if is_numeric (ckind c) then
    let nn := map num_of (dropna (cvals c)) in
    if (10 <? length nn)%nat then
      let Q1 := quantile nn 1 4 in
      let Q3 := quantile nn 3 4 in
      let IQR := Q3 - Q1 in
      if q_lt 0 IQR then
        let lower_bound := Q1 - 3 * IQR in
        let upper_bound := Q3 + 3 * IQR in
        count_if (fun v => q_lt v lower_bound || q_lt upper_bound v) nn
      else 0
    else 0
  else 0.

(** *** 6. Timeliness *)

Definition year_keywords : list string :=
  ["year"; "عام"; "سنة"; "سنه"; "تاريخ"; "date"]%string.

Definition in_year_range (q : Q) : bool := Qle_bool 1900 q && Qle_bool q 2100.

Definition somes {A} (l : list (option A)) : list A :=
  flat_map (fun o => match o with Some x => [x] | None => [] end) l.

(** One column of the loop of lines 182-256: whether it is a year column
    and how many of its years are more than ten years old. *)
Definition col_timeliness (current_year : Z) (c : column) : bool * nat :=
  let col_lower := lower (cname c) in
  let is_year_column :=
    existsb (fun k => contains k col_lower) year_keywords in
  let stale (q : Q) := q_lt q (inject_Z (current_year - 10)) in
  let '(year_values_found, old_years) :=
    if is_numeric (ckind c) then
      match map num_of (dropna (cvals c)) with
      | [] => (false, 0%nat)
      | nn =>
          if q_lt (n2q (length nn) * (7#10)) (n2q (count_if in_year_range nn))
          then (true, count_if stale nn)
          else (false, 0%nat)
      end
    else if is_object (ckind c) then
      match map py_str (dropna (cvals c)) with
      | [] => (false, 0%nat)
      | nn =>
          let '(dates_found, dates_old) :=
            match py_to_datetime_years nn with
            | Some parsed =>
                let years := somes parsed in
                if q_lt (n2q (length nn) * (1#2)) (n2q (length years))
                then (true, count_if (fun y => (y <? current_year - 10)%Z) years)
                else (false, 0%nat)
            | None => (false, 0%nat)
            end in
          if dates_found then (true, dates_old)
          else
            let head := firstn 100 nn in
            let extracted_years :=
              flat_map (fun v => match py_year_search v with
                                 | Some y =>
                                     if (1900 <=? y)%Z && (y <=? 2100)%Z
                                     then [y] else []
                                 | None => []
                                 end) head in
            if q_lt (n2q (length head) * (1#2)) (n2q (length extracted_years))
            then (true, count_if (fun y => (y <? current_year - 10)%Z)
                                 extracted_years)
            else (false, 0%nat)
      end
    else (false, 0%nat) in
  if is_year_column && negb year_values_found then
    match dropna (cvals c) with
    | [] => (year_values_found, old_years)
    | vs =>
        let nn := map num_of vs in
        if is_numeric (ckind c) &&
           q_lt (n2q (length nn) * (1#2)) (n2q (count_if in_year_range nn))
        then (true, count_if stale nn)
        else (year_values_found, old_years)
    end
  else (year_values_found, old_years).

Definition year_columns_of (current_year : Z) (cols : list column) : nat :=
  count_if (fun c => fst (col_timeliness current_year c)) cols.

Definition old_years_of (current_year : Z) (cols : list column) : nat :=
  list_sum (map (fun c => snd (col_timeliness current_year c)) cols).

(** ** The report *)

Record col_detail := mk_col_detail {
  cd_name : string;
  cd_type : string;
  cd_missing : nat
}.

Record report := mk_report {
  total_rows : nat;
  total_columns : nat;
  overall_score : Q;
  completeness_score : Q;
  missing_values : nat;
  missing_percentage : Q;
  consistency_score : Q;
  consistency_issues : nat;
  type_inconsistencies : nat;
  uniqueness_score : Q;
  duplicate_rows : nat;
  duplicate_percentage : Q;
  validity_score : Q;
  validity_issues : nat;
  accuracy_score : Q;
  accuracy_issues : nat;
  timeliness_score : option Q;
  year_columns_found : nat;
  old_years_count : nat;
  timeliness_applicable : bool;
  column_details : list col_detail
}.

(** [assess_data_quality(df)]; [current_year] is [datetime.now().year],
    read from the clock on line 180. *)
Definition assess_data_quality (current_year : Z) (df : table)
  : option report :=
  let cols := df_columns df in
  let total_rows := length (rows df) in
  let total_columns := length (columns df) in
  let total_cells :=
    if (0 <? total_rows * total_columns)%nat
    then (total_rows * total_columns)%nat else 1%nat in
  (* 1. Completeness *)
  let missing_values := list_sum (map (fun c => count_missing (cvals c)) cols) in
  let* mv := py_div (n2q missing_values) (n2q total_cells) in
  let missing_percentage := mv * 100 in
  let completeness_score := 100 - missing_percentage in
  (* 2. Consistency: the loop reaches [df[col].dtype] (line 84) for every
     label, which raises AttributeError on a label naming several columns *)
  let* labels_ok :=
    if labels_distinct (map fst (columns df)) then Some tt else None in
  let consistency_issues := list_sum (map col_email_issues cols) in
  let type_inconsistencies := count_if col_type_inconsistent cols in
  let* ci := py_div (n2q consistency_issues) (n2q total_cells) in
  let consistency_score :=
    Qmax 0 (100 - ci * 100 - n2q type_inconsistencies * 10) in
  (* 3. Uniqueness *)
  let duplicate_rows := df_duplicated_sum df in
  let* duplicate_percentage :=
    if (0 <? total_rows)%nat
    then (let* d := py_div (n2q duplicate_rows) (n2q total_rows) in
          Some (d * 100))
    else Some 0 in
  let duplicate_values_count := list_sum (map col_duplicate_values cols) in
  let* dv := py_div (n2q duplicate_values_count) (n2q total_cells) in
  let uniqueness_score := Qmax 0 (100 - duplicate_percentage - dv * 50) in
  (* 4. Validity *)
  let validity_issues := list_sum (map col_validity_issues cols) in
  let* vi := py_div (n2q validity_issues) (n2q total_cells) in
  let validity_score := Qmax 0 (100 - vi * 100) in
  (* 5. Accuracy *)
  let accuracy_issues := list_sum (map col_accuracy_issues cols) in
  let* ai := py_div (n2q accuracy_issues) (n2q total_cells) in
  let accuracy_score := Qmax 0 (100 - ai * 50) in
  (* 6. Timeliness *)
  let year_columns_found := year_columns_of current_year cols in
  let old_years_count := old_years_of current_year cols in
  let* timeliness_score :=
    if (0 <? year_columns_found)%nat && (0 <? total_rows)%nat
    then (let* o := py_div (n2q old_years_count) (n2q total_rows) in
          let old_years_percentage := o * 100 in
          Some (Some (Qmax 0 (100 - old_years_percentage * (3#2)))))
    else Some None in
  (* Column details *)
  let column_details :=
    map (fun c => mk_col_detail (cname c) (dtype_name (ckind c))
                                (count_missing (cvals c))) cols in
  (* Overall *)
  let applicable_scores :=
    [completeness_score; consistency_score; uniqueness_score;
     validity_score; accuracy_score] ++
    match timeliness_score with Some s => [s] | None => [] end in
  let* overall_score :=
    match applicable_scores with
    | [] => Some 0
    | _ => py_div (q_sum applicable_scores) (n2q (length applicable_scores))
    end in
  Some (mk_report total_rows total_columns overall_score
          completeness_score missing_values missing_percentage
          consistency_score consistency_issues type_inconsistencies
          uniqueness_score duplicate_rows duplicate_percentage
          validity_score validity_issues
          accuracy_score accuracy_issues
          timeliness_score year_columns_found old_years_count
          (match timeliness_score with Some _ => true | None => false end)
          column_details).

End Engine.

(** ** A concrete instance of the primitives

    Used to run the engine on example tables: integers print in decimal
    (other numbers as [n/d]); [float(s)] accepts an optional sign and decimal
    digits with at most one point; [pd.to_datetime] reads [YYYY-MM-DD] and
    never raises; the year search finds a [19xx] or [20xx] run of four digits
    between word boundaries. *)
Module DemoPrims.
Local Open Scope nat_scope.

Definition digit_char (d : nat) : ascii := ascii_of_nat (48 + d).

Fixpoint nat_digits (fuel n : nat) (acc : string) : string :=
  match fuel with
  | 0 => acc
  | S f =>
      let acc' := String (digit_char (n mod 10)) acc in
      if (n <? 10)%nat then acc' else nat_digits f (n / 10) acc'
  end.

Definition show_nat (n : nat) : string := nat_digits (S n) n EmptyString.

Definition show_Z (z : Z) : string :=
  if (z <? 0)%Z then String "-" (show_nat (Z.to_nat (- z)))
  else show_nat (Z.to_nat z).

Definition show_Q (q : Q) : string :=
  if (Zpos (Qden q) =? 1)%Z then show_Z (Qnum q)
  else (show_Z (Qnum q) ++ "/" ++ show_Z (Zpos (Qden q)))%string.

Definition is_digit (c : ascii) : bool := in_range 48 57 c.

Definition float_ok (s : string) : bool :=
  let l := list_ascii_of_string s in
  let body := match l with
              | c :: r => if Ascii.eqb c "-" || Ascii.eqb c "+" then r else l
              | [] => []
              end in
  existsb is_digit body &&
  forallb (fun c => is_digit c || Ascii.eqb c ".") body &&
  (count_if (fun c => Ascii.eqb c ".") body <=? 1)%nat.

Definition digit_val (c : ascii) : Z := Z.of_nat (nat_of_ascii c - 48).

Definition iso_year (s : string) : option Z :=
  match list_ascii_of_string s with
  | [y1; y2; y3; y4; "-"; m1; m2; "-"; d1; d2]%char =>
      if forallb is_digit [y1; y2; y3; y4; m1; m2; d1; d2]
      then Some (digit_val y1 * 1000 + digit_val y2 * 100 +
                 digit_val y3 * 10 + digit_val y4)%Z
      else None
  | _ => None
  end.

Fixpoint year_scan (prev_word : bool) (l : list ascii) : option Z :=
  match l with
  | a :: (b :: c :: d :: r) as tail =>
      let next_word := match r with e :: _ => is_alnum e | [] => false end in
      if negb prev_word && forallb is_digit [a; b; c; d] && negb next_word &&
         ((Ascii.eqb a "1" && Ascii.eqb b "9") ||
          (Ascii.eqb a "2" && Ascii.eqb b "0"))
      then Some (digit_val a * 1000 + digit_val b * 100 +
                 digit_val c * 10 + digit_val d)%Z
      else year_scan (is_alnum a) tail
  | _ => None
  end.

#[export] Instance demo : PyPrims := {
  py_str_num := show_Q;
  py_float_ok := float_ok;
  py_to_datetime_years := fun vs => Some (map iso_year vs);
  py_year_search := fun s => year_scan false (list_ascii_of_string s)
}.

End DemoPrims.

(** ** Example tables *)

Local Open Scope string_scope.
Local Open Scope list_scope.

Definition scenario_a : table :=
  mk_table [("age", KInt); ("name", KText)]
    [[Some (VNum (-5)); Some (VStr "Bob")];
     [Some (VNum 30); Some (VStr "Alice")]].

Definition scenario_b : table :=
  mk_table [("emails", KText)]
    [[Some (VStr "a@b.com")]; [Some (VStr "not-an-email")];
     [Some (VStr "c@d.org")]].

Definition scenario_c : table :=
  mk_table [("year", KInt)]
    [[Some (VNum 2024)]; [Some (VNum 2023)]; [Some (VNum 2010)];
     [Some (VNum 1995)]].

Definition scenario_d : table :=
  mk_table [("a", KInt); ("b", KText)]
    [[Some (VNum 1); Some (VStr "x")]; [Some (VNum 1); Some (VStr "x")];
     [Some (VNum 1); Some (VStr "x")]].

(** A numeric column with one far outlier: [1, ..., 10, 100]. *)
Definition scenario_e : table :=
  mk_table [("v", KInt)]
    (map (fun q => [Some (VNum q)]) [1; 2; 3; 4; 5; 6; 7; 8; 9; 10; 100]%Q).

(** A table whose [notes] column is entirely missing. *)
Definition notes_table : table :=
  mk_table [("id", KInt); ("notes", KText)]%string
    [[Some (VNum 1); None]; [Some (VNum 2); None]].

(** Two columns sharing the label [score]. *)
Definition shared_label_table : table :=
  mk_table [("score", KInt); ("score", KInt)] [[Some (VNum 1); Some (VNum 2)]].

(** The table with every row repeated once after the last one. *)
Definition double_rows (t : table) : table :=
  mk_table (columns t) (rows t ++ rows t).

(** The number of cells of the text columns: a bound on their duplicate
    values. *)
Definition text_weight (cols : list column) : nat :=
  list_sum (map (fun c => if is_object (ckind c) then length (cvals c) else 0%nat) cols).

(** The report with the fields computed from the clock's year blanked. *)
Definition forget_clock (r : report) : report :=
  mk_report (total_rows r) (total_columns r) 0
    (completeness_score r) (missing_values r) (missing_percentage r)
    (consistency_score r) (consistency_issues r) (type_inconsistencies r)
    (uniqueness_score r) (duplicate_rows r) (duplicate_percentage r)
    (validity_score r) (validity_issues r)
    (accuracy_score r) (accuracy_issues r)
    (option_map (fun _ => 0) (timeliness_score r)) (year_columns_found r) 0
    (timeliness_applicable r) (column_details r).

(** ** [load_data] (src/data_quality.py, lines 12-64) *)

(** A Python exception, carried by [str(e)], or a value. *)
Inductive result (A : Type) := Ok (a : A) | Raise (msg : string).
Arguments Ok {A} a.
Arguments Raise {A} msg.

Notation "'let!' x := m 'in' k" :=
  (match m with Ok x => k | Raise e => Raise e end)
  (at level 200, x name, m at level 100, k at level 200).

(** What [json.load] returns. *)
#[warnings="-register-all"]
Inductive json :=
  | JNull | JBool (b : bool) | JNum (q : Q) | JStr (s : string)
  | JArr (l : list json) | JObj (kv : list (string * json)).

(** The readers [load_data] calls, given the bytes of the file at
    [file_path] ([None] when it cannot be opened). *)
Class LoadPrims := {
  (** [pd.read_csv(file_path)] *)
  pd_read_csv : option string -> result table;
  (** [pd.read_excel(file_path)] *)
  pd_read_excel : option string -> result table;
  (** [json.load(open(file_path, 'r', encoding='utf-8'))] *)
  json_load : option string -> result json;
  (** [pd.DataFrame(records)] for a list *)
  pd_dataframe : list json -> result table
}.

Definition cannot_determine_msg : string :=
  "Cannot determine file type. Please ensure your file has an extension (.csv, .xlsx, .xls, or .json)".

(** [s.rsplit('.', 1)[1].lower()] when ['.' in s], [None] otherwise. *)
Definition name_ext (s : string) : option string :=
  match split_last "." (list_ascii_of_string s) with
  | Some (_, e) => Some (lower (string_of_list_ascii e))
  | None => None
  end.

(** [b'\xd0\xcf\x11\xe0'], the signature of the old Excel format. *)
Definition ole_magic : string :=
  String "208" (String "207" (String "017" (String "224" EmptyString))).

(** Lines 25-41: the file type read off the first eight bytes. *)
Definition sniff_ext (file : option string) : result string :=
  match file with
  | None => Raise cannot_determine_msg
  | Some content =>
      let first_bytes := substring 0 8 content in
      if prefix "PK" first_bytes then Ok "xlsx"
      else if prefix ole_magic first_bytes then Ok "xls"
      else match first_bytes with
           | EmptyString => Raise cannot_determine_msg
           | String c _ =>
               if Ascii.eqb c "{" || Ascii.eqb c "[" then Ok "json"
               else Ok "csv"
           end
  end.

(** [original_filename or filename] *)
Definition py_or (original : option string) (filename : string) : string :=
  match original with
  | Some o => if String.eqb o "" then filename else o
  | None => filename
  end.

(** Lines 14-41: the extension [load_data] dispatches on. *)
Definition resolve_ext (file : option string) (filename : string)
    (original : option string) : result string :=
  let check_filename := py_or original filename in
  let ext := match name_ext check_filename with
             | Some e => Some e
             | None => name_ext filename
             end in
  match ext with
  | Some e => if String.eqb e "" then sniff_ext file else Ok e
  | None => sniff_ext file
  end.

Definition unsupported_msg (ext : string) : string :=
  "Unsupported file type: " ++ ext ++ ". Please upload CSV, Excel, or JSON files.".

Section Loading.
Context `{LP : LoadPrims}.

(** Lines 44-60, the body of the [try]. *)
Definition read_by_ext (ext : string) (file : option string) : result table :=
  if String.eqb ext "csv" then pd_read_csv file
  else if String.eqb ext "xlsx" || String.eqb ext "xls" then pd_read_excel file
  else if String.eqb ext "json" then
    let! data := json_load file in
    match data with
    | JArr l => pd_dataframe l
    | JObj kv => pd_dataframe [JObj kv]
    | _ => Raise "Unsupported JSON structure"
    end
  else Raise (unsupported_msg ext).

Definition load_error_prefix : string := "Error loading file: ".

(** [load_data(file_path, filename, original_filename)] *)
Definition load_data (file : option string) (filename : string)
    (original : option string) : result table :=
  let! ext := resolve_ext file filename original in
  match read_by_ext ext file with
  | Ok df => Ok df
  | Raise m => Raise (load_error_prefix ++ m)
  end.
End Loading.

(** ** src/app.py *)

(** [app.config['ALLOWED_EXTENSIONS']] *)
Definition allowed_extensions : list string := ["csv"; "xlsx"; "xls"; "json"].

(** ['.' in s] *)
Definition has_dot (s : string) : bool :=
  existsb (Ascii.eqb ".") (list_ascii_of_string s).

(** [allowed_file(filename)] (lines 23-24) *)
Definition allowed_file (filename : string) : bool :=
  match name_ext filename with
  | Some e => existsb (String.eqb e) allowed_extensions
  | None => false
  end.

(** ** [convert_nan_to_none] (lines 27-38) *)

Inductive pyfloat := Fin (q : Q) | NaN | Inf (negative : bool).

Definition float_isnan (f : pyfloat) : bool :=
  match f with NaN => true | _ => false end.

Definition float_isinf (f : pyfloat) : bool :=
  match f with Inf _ => true | _ => false end.

(** The Python objects the report and the preview are made of: [ONpInt]
    and [ONpFloat] are numpy scalars of [np.integer] and [np.floating];
    [ONpOther] is any other numpy scalar ([np.bool_], [np.datetime64],
    [np.complex128], [np.str_], ...), named by its dtype. *)
#[warnings="-register-all"]
Inductive pyobj :=
  | ONone | OBool (b : bool) | OInt (z : Z) | OFloat (f : pyfloat)
  | OStr (s : string) | ONpInt (z : Z) | ONpFloat (f : pyfloat)
  | ONpOther (dtype : string)
  | OList (l : list pyobj) | OTuple (l : list pyobj)
  | ODict (kv : list (pyobj * pyobj)).

Fixpoint convert_nan_to_none (obj : pyobj) : pyobj :=
  match obj with
  | ODict kv => ODict (map (fun '(k, v) => (k, convert_nan_to_none v)) kv)
  | OList l => OList (map convert_nan_to_none l)
  | OFloat f => if float_isnan f || float_isinf f then ONone else obj
  | ONpInt z => OInt z
  | ONpFloat f => if float_isnan f || float_isinf f then ONone else OFloat f
  | _ => obj
  end.

(** No NaN or infinite float and no numpy scalar in a value reachable
    through dictionary values, list items and tuple items. *)
Fixpoint json_clean (obj : pyobj) : bool :=
  match obj with
  | ODict kv => forallb (fun '(_, v) => json_clean v) kv
  | OList l | OTuple l => forallb json_clean l
  | OFloat f => negb (float_isnan f || float_isinf f)
  | ONpInt _ | ONpFloat _ | ONpOther _ => false
  | _ => true
  end.

(** No tuple and no numpy scalar other than [np.integer] and
    [np.floating] reachable through dictionary values and list items: the
    objects whose every part [convert_nan_to_none] inspects. *)
Fixpoint convertible (obj : pyobj) : bool :=
  match obj with
  | ODict kv => forallb (fun '(_, v) => convertible v) kv
  | OList l => forallb convertible l
  | OTuple _ | ONpOther _ => false
  | _ => true
  end.

(** ** [evaluate()] (lines 52-122) *)

(** [request.files['file']]: its [filename] and its bytes. *)
Record upload := mk_upload {
  up_filename : option string;
  up_content : string
}.

(** [jsonify({'error': msg}), status] or [jsonify(quality_report)]. *)
Inductive response :=
  | RError (status : nat) (msg : string)
  | RReport (r : report) (preview_columns : list string).

Class WebPrims := {
  (** [werkzeug.utils.secure_filename] *)
  secure_filename : string -> string;
  (** [file.save(os.path.join('uploads', filename))]: [Some (str(e))]
      when it raises *)
  save_error : string -> option string;
  (** lines 85-108 after the report is built (preview, [json.dump] of the
      saved report, [os.remove] of the upload): [Some (str(e))] when one
      of them raises *)
  publish_error : report -> option string;
  (** [str(e)] for the exception [assess_data_quality(df)] raised on a
      table *)
  assess_error : table -> string
}.

Definition not_allowed_msg : string :=
  "File type not allowed. Please upload CSV, Excel, or JSON files.".

Definition empty_msg : string := "The uploaded file is empty or contains no data".

(** [df.empty] *)
Definition df_empty (df : table) : bool :=
  (length (rows df) =? 0)%nat || (length (columns df) =? 0)%nat.

Section Web.
Context `{Py : PyPrims} `{LP : LoadPrims} `{WP : WebPrims}.

Definition evaluate (current_year : Z) (req : option upload) : response :=
  match req with
  | None => RError 400 "No file provided"
  | Some file =>
      if match up_filename file with
         | Some f => String.eqb f ""
         | None => false
         end
      then RError 400 "No file selected"
      else if match up_filename file with
              | Some f => has_dot f && negb (allowed_file f)
              | None => false
              end
      then RError 400 not_allowed_msg
      else
        let original_filename :=
          match up_filename file with Some f => f | None => "uploaded_file" end in
        let filename := secure_filename original_filename in
        match save_error filename with
        | Some m => RError 500 m
        | None =>
            match load_data (Some (up_content file)) filename
                            (Some original_filename) with
            | Raise m => RError 500 m
            | Ok df =>
                if df_empty df then RError 500 empty_msg
                else match assess_data_quality current_year df with
                     | None => RError 500 (assess_error df)
                     | Some r =>
                         match publish_error r with
                         | Some m => RError 500 m
                         | None => RReport r (map fst (columns df))
                         end
                     end
            end
        end
  end.
End Web.

(** Induction on [pyobj] through list items and dictionary values. *)
#[warnings="-register-all"]
Fixpoint pyobj_ind' (P : pyobj -> Prop)
    (Hleaf : forall o, match o with OList _ | ODict _ => False | _ => True end -> P o)
    (Hlist : forall l, Forall P l -> P (OList l))
    (Hdict : forall kv, Forall (fun kv => P (snd kv)) kv -> P (ODict kv))
    (o : pyobj) : P o :=
  match o with
  | OList l =>
      Hlist l ((fix go (l : list pyobj) : Forall P l :=
                  match l with
                  | [] => Forall_nil _
                  | x :: r => @Forall_cons _ P x r (pyobj_ind' P Hleaf Hlist Hdict x) (go r)
                  end) l)
  | ODict kv =>
      Hdict kv ((fix go (kv : list (pyobj * pyobj))
                   : Forall (fun kv => P (snd kv)) kv :=
                   match kv with
                   | [] => Forall_nil _
                   | (k, v) :: r =>
                       @Forall_cons _ (fun kv => P (snd kv)) (k, v) r
                         (pyobj_ind' P Hleaf Hlist Hdict v) (go r)
                   end) kv)
  | ONone => Hleaf ONone I
  | OBool b => Hleaf (OBool b) I
  | OInt z => Hleaf (OInt z) I
  | OFloat f => Hleaf (OFloat f) I
  | OStr s => Hleaf (OStr s) I
  | ONpInt z => Hleaf (ONpInt z) I
  | ONpFloat f => Hleaf (ONpFloat f) I
  | ONpOther d => Hleaf (ONpOther d) I
  | OTuple l => Hleaf (OTuple l) I
  end.



(** ** Concrete instances of the readers and of the web primitives

    Used to run [load_data] and [evaluate] on concrete uploads.  The
    readers answer as pandas and [json] do on the files named below (the
    CSV text of [scenario_a], its header line alone, the JSON texts [7]
    and [[]]); on any other content they fail with a parse error. *)

Definition newline : string := String (ascii_of_nat 10) EmptyString.

(** The CSV text of [scenario_a]. *)
Definition people_csv : string :=
  "age,name" ++ newline ++ "-5,Bob" ++ newline ++ "30,Alice".

Module DemoLoad.

Definition no_such_file : string := "[Errno 2] No such file or directory".

Definition unparsable : string := "Error tokenizing data".

Definition demo : LoadPrims := {|
  pd_read_csv := fun file =>
    match file with
    | Some c =>
        if String.eqb c people_csv then Ok scenario_a
        (* a header line alone: two object columns and no rows *)
        else if String.eqb c "age,name"
        then Ok (mk_table [("age", KText); ("name", KText)] [])
        else Raise unparsable
    | None => Raise no_such_file
    end;
  pd_read_excel := fun file =>
    match file with
    | Some _ =>
        Raise "Excel file format cannot be determined, you must specify an engine manually."
    | None => Raise no_such_file
    end;
  json_load := fun file =>
    match file with
    | Some c =>
        if String.eqb c "7" then Ok (JNum 7)
        else if String.eqb c "[]" then Ok (JArr [])
        else Raise "Expecting value: line 1 column 1 (char 0)"
    | None => Raise no_such_file
    end;
  pd_dataframe := fun l =>
    match l with [] => Ok (mk_table [] []) | _ => Raise unparsable end
|}.

End DemoLoad.

Module DemoWeb.

Definition demo : WebPrims := {|
  secure_filename := fun s => s;
  save_error := fun fn =>
    if String.eqb fn "" then Some "[Errno 21] Is a directory: 'uploads/'"
    else None;
  publish_error := fun _ => None;
  assess_error := fun _ => "float division by zero"
|}.

End DemoWeb.

(** [scenario_a] with its two rows in the other order. *)
Definition scenario_a_swapped : table :=
  mk_table [("age", KInt); ("name", KText)]
    [[Some (VNum 30); Some (VStr "Alice")];
     [Some (VNum (-5)); Some (VStr "Bob")]].

(** A report-like object holding a NaN float, a numpy integer and an
    infinite numpy float. *)
Definition sample_report_obj : pyobj :=
  ODict [(OStr "score", OFloat NaN); (OStr "rows", ONpInt 3);
         (OStr "values", OList [ONpFloat (Inf false); OFloat (Fin 1); ONone])].

(** ** Division guards *)

Section Proofs.
Context `{Py : PyPrims}.

Lemma py_div_nz (a b : Q) : ~ b == 0 -> py_div a b = Some (a / b).
Proof.
  intros Hb. unfold py_div.
  destruct (Qeq_bool b 0) eqn:E; [apply Qeq_bool_iff in E; contradiction|].
  reflexivity.
Qed.

Lemma n2q_nz (n : nat) : (0 < n)%nat -> ~ n2q n == 0.
Proof. unfold n2q, Qeq. simpl. lia. Qed.

Lemma n2q_nonneg (n : nat) : 0 <= n2q n.
Proof. unfold n2q, Qle. simpl. lia. Qed.

Lemma n2q_le (n m : nat) : (n <= m)%nat -> n2q n <= n2q m.
Proof. unfold n2q, Qle. simpl. lia. Qed.

Lemma n2q_pos (n : nat) : (0 < n)%nat -> 0 < n2q n.
Proof. unfold n2q, Qlt. simpl. lia. Qed.

Lemma total_cells_pos (n m : nat) :
  (0 < (if (0 <? n * m)%nat then (n * m)%nat else 1%nat))%nat.
Proof. destruct (0 <? n * m)%nat eqn:E; [apply Nat.ltb_lt in E|]; lia. Qed.

Lemma py_div_cells (a : Q) (n m : nat) :
  py_div a (n2q (if (0 <? n * m)%nat then (n * m)%nat else 1%nat)) =
  Some (a / n2q (if (0 <? n * m)%nat then (n * m)%nat else 1%nat)).
Proof. apply py_div_nz, n2q_nz, total_cells_pos. Qed.

End Proofs.

(** [assess_cases H] turns [H : assess_data_quality cy t = Some r] into the
    closed form of [r], one goal per outcome of the row and year-column
    guards. *)
Ltac assess_cases H :=
  unfold assess_data_quality in H; cbv zeta in H;
  rewrite ?py_div_cells in H;
  revert H;
  try match goal with
  | |- context [labels_distinct ?l] =>
      let Hl := fresh "Hlabels" in
      destruct (labels_distinct l) eqn:Hl; [|intros H; discriminate H]
  end;
  try match goal with
  | |- context [Nat.ltb 0 (length (rows ?t))] =>
      let Hr := fresh "Hrows" in
      destruct (Nat.ltb 0 (length (rows t))) eqn:Hr
  end;
  try match goal with
  | |- context [Nat.ltb 0 (year_columns_of ?cy ?cols)] =>
      let Hy := fresh "Hyears" in
      destruct (Nat.ltb 0 (year_columns_of cy cols)) eqn:Hy
  end;
  try match goal with
  | Hr : Nat.ltb 0 (length (rows ?t)) = true |- _ =>
      repeat rewrite (py_div_nz _ _ (n2q_nz _ (proj1 (Nat.ltb_lt _ _) Hr)))
  end;
  cbn [andb app length];
  intros H;
  rewrite py_div_nz in H by (unfold n2q, Qeq; simpl; lia);
  injection H as <-.

Ltac split_clock_free cy1 cy2 :=
  repeat (cbn beta iota zeta;
    match goal with
    | |- context [match ?x with _ => _ end] =>
        lazymatch x with
        | context [cy1] => fail
        | context [cy2] => fail
        | _ => destruct x
        end
    end).

Section Bounds.
Context `{Py : PyPrims}.

Lemma count_if_le {A} (p : A -> bool) (l : list A) : (count_if p l <= length l)%nat.
Proof. unfold count_if. apply filter_length_le. Qed.

Lemma col_cells_length (t : table) (j : nat) :
  length (col_cells t j) = length (rows t).
Proof. unfold col_cells. apply length_map. Qed.



Lemma missing_le_from (t : table) (j : nat) (hs : list (string * kind)) :
  (list_sum (map (fun c => count_missing (cvals c)) (columns_from t j hs))
   <= length hs * length (rows t))%nat.
Proof.
  revert j. induction hs as [|[n k] hs IH]; intros j;
    cbn [columns_from map list_sum fold_right length cvals]; [lia|].
  assert (Hc : (count_missing (col_cells t j) <= length (rows t))%nat)
    by (rewrite <- (col_cells_length t j); apply count_if_le).
  specialize (IH (S j)). unfold list_sum in IH. rewrite Nat.mul_succ_l. lia.
Qed.

Lemma missing_le_cells (t : table) :
  (list_sum (map (fun c => count_missing (cvals c)) (df_columns t))
   <= (if Nat.ltb 0 (length (rows t) * length (columns t))
       then (length (rows t) * length (columns t))%nat else 1%nat))%nat.
Proof.
  pose proof (missing_le_from t 0 (columns t)) as H.
  unfold df_columns.
  destruct (Nat.ltb 0 (length (rows t) * length (columns t))) eqn:E;
    [|apply Nat.ltb_ge in E]; nia.
Qed.

Lemma frac_nonneg (a b : nat) : 0 <= n2q a / n2q b.
Proof.
  destruct b as [|b].
  - unfold n2q, Qdiv, Qinv, Qmult, Qle; simpl. lia.
  - apply Qle_shift_div_l; [apply n2q_pos; lia|].
    rewrite Qmult_0_l. apply n2q_nonneg.
Qed.

Lemma frac_le_1 (a b : nat) : (0 < b)%nat -> (a <= b)%nat -> n2q a / n2q b <= 1.
Proof.
  intros Hb Hab. apply Qle_shift_div_r; [apply n2q_pos; lia|].
  rewrite Qmult_1_l. apply n2q_le; lia.
Qed.

Lemma qmax0_range (x : Q) : x <= 100 -> 0 <= Qmax 0 x <= 100.
Proof.
  intros Hx. destruct (Q.max_spec 0 x) as [[L E]|[L E]]; rewrite E; lra.
Qed.

Lemma mean5 (a b c d e : Q) :
  q_sum [a; b; c; d; e] / n2q 5 == (a + b + c + d + e) / 5.
Proof. unfold q_sum, n2q. cbn [fold_right]. field. Qed.

Lemma mean6 (a b c d e f : Q) :
  q_sum [a; b; c; d; e; f] / n2q 6 == (a + b + c + d + e + f) / 6.
Proof. unfold q_sum, n2q. cbn [fold_right]. field. Qed.

Lemma count_if_map {A B} (p : B -> bool) (f : A -> B) (l : list A) :
  count_if p (map f l) = count_if (fun x => p (f x)) l.
Proof.
  unfold count_if. induction l as [|x l IH]; cbn; [reflexivity|].
  destruct (p (f x)); cbn; congruence.
Qed.

Lemma col_timeliness_found_clock_free (cy1 cy2 : Z) (c : column) :
  fst (col_timeliness cy1 c) = fst (col_timeliness cy2 c).
Proof.
  unfold col_timeliness. split_clock_free cy1 cy2; reflexivity.
Qed.

Lemma year_columns_clock_free (cy1 cy2 : Z) (cols : list column) :
  year_columns_of cy1 cols = year_columns_of cy2 cols.
Proof.
  unfold year_columns_of, count_if. f_equal. apply filter_ext.
  intros c. apply col_timeliness_found_clock_free.
Qed.

Lemma assess_total (cy : Z) (t : table) :
  (exists r, assess_data_quality cy t = Some r) <->
  labels_distinct (map fst (columns t)) = true.
Proof.
  unfold assess_data_quality; cbv zeta; rewrite ?py_div_cells.
  destruct (labels_distinct (map fst (columns t)));
    [|split; [intros [r H]; discriminate H|discriminate]].
  split; [reflexivity|intros _].
  destruct (Nat.ltb 0 (length (rows t))) eqn:Hr;
    [repeat rewrite (py_div_nz _ _ (n2q_nz _ (proj1 (Nat.ltb_lt _ _) Hr)))|];
  destruct (Nat.ltb 0 (year_columns_of cy (df_columns t)));
  cbn [andb app length];
  rewrite py_div_nz by (unfold n2q, Qeq; simpl; lia);
  eexists; reflexivity.
Qed.

Lemma dropna_nil (cs : list cell) :
  dropna cs = [] -> forall x, In x cs -> x = None.
Proof.
  induction cs as [|[v|] cs IH]; cbn; [tauto|discriminate|].
  intros H x [<-|Hx]; [reflexivity|]. apply IH; assumption.
Qed.

Lemma dups_all_missing (l seen : list cell) :
  (forall x, In x l -> x = None) -> In None seen ->
  dups_from cell_eqb seen l = length l.
Proof.
  revert seen. induction l as [|x l IH]; intros seen Hl Hs; [reflexivity|].
  cbn. rewrite (Hl x (or_introl eq_refl)).
  assert (E : existsb (cell_eqb None) seen = true).
  { apply existsb_exists. exists None. split; [assumption|reflexivity]. }
  rewrite E. rewrite IH; [reflexivity| |left; reflexivity].
  intros y Hy. apply Hl. right. assumption.
Qed.

Lemma all_missing_column (cy : Z) (c : column) :
  dropna (cvals c) = [] ->
  col_type_inconsistent c = false /\ col_email_issues c = 0%nat /\
  col_validity_issues c = 0%nat /\ col_accuracy_issues c = 0%nat /\
  col_timeliness cy c = (false, 0%nat) /\
  col_duplicate_values c =
    (if is_object (ckind c) then length (cvals c) - 1 else 0)%nat.
Proof.
  intros H.
  unfold col_type_inconsistent, col_email_issues, col_validity_issues,
    col_accuracy_issues, col_timeliness, col_duplicate_values.
  rewrite H. pose proof (dropna_nil _ H) as Hn.
  destruct (existsb (fun k => contains k (lower (cname c))) year_keywords);
  destruct (ckind c); cbn; repeat split.
  all: destruct (cvals c) as [|x l] eqn:Ec; [reflexivity|].
  all: unfold duplicated_sum; cbn; rewrite (Hn x (or_introl eq_refl)).
  all: rewrite dups_all_missing; [lia| |left; reflexivity].
  all: intros y Hy; apply Hn; right; assumption.
Qed.
Lemma value_eqb_refl (v : value) : value_eqb v v = true.
Proof.
  destruct v; cbn; [apply Qeq_bool_iff; reflexivity|apply String.eqb_refl].
Qed.

Lemma cell_eqb_refl (c : cell) : cell_eqb c c = true.
Proof. destruct c; cbn; [apply value_eqb_refl|reflexivity]. Qed.

Lemma row_eqb_refl (r : list cell) : row_eqb r r = true.
Proof. induction r; cbn; [reflexivity|]. rewrite cell_eqb_refl. assumption. Qed.

Lemma dups_from_app {A} (eqb : A -> A -> bool) (seen l1 l2 : list A) :
  dups_from eqb seen (l1 ++ l2) =
  (dups_from eqb seen l1 + dups_from eqb (rev l1 ++ seen) l2)%nat.
Proof.
  revert seen. induction l1 as [|x l1 IH]; intros seen; cbn; [reflexivity|].
  rewrite IH, <- app_assoc. cbn. lia.
Qed.

Lemma dups_from_all_seen {A} (eqb : A -> A -> bool) (seen l : list A) :
  (forall x, In x l -> existsb (eqb x) seen = true) ->
  dups_from eqb seen l = length l.
Proof.
  revert seen. induction l as [|x l IH]; intros seen Hs; cbn; [reflexivity|].
  rewrite (Hs x (or_introl eq_refl)). cbn [Nat.add]. f_equal. apply IH.
  intros y Hy. cbn. rewrite (Hs y (or_intror Hy)). apply orb_true_r.
Qed.

Lemma dups_from_le {A} (eqb : A -> A -> bool) (seen l : list A) :
  (dups_from eqb seen l <= length l)%nat.
Proof.
  revert seen. induction l as [|x l IH]; intros seen; cbn; [lia|].
  specialize (IH (x :: seen)). destruct (existsb _ _); lia.
Qed.

Lemma duplicated_sum_double {A} (eqb : A -> A -> bool) (l : list A) :
  (forall x, eqb x x = true) ->
  duplicated_sum eqb (l ++ l) = (duplicated_sum eqb l + length l)%nat.
Proof.
  intros Hr. unfold duplicated_sum. rewrite dups_from_app. f_equal.
  apply dups_from_all_seen. intros x Hx. apply existsb_exists.
  exists x. split; [rewrite app_nil_r; apply in_rev; rewrite rev_involutive; exact Hx|apply Hr].
Qed.

Lemma dup_rows_double (t : table) :
  rows t <> [] ->
  df_duplicated_sum (double_rows t) =
  (df_duplicated_sum t +
   match columns t with [] => 0 | _ => length (rows t) end)%nat.
Proof.
  intros Hne. unfold df_duplicated_sum, double_rows. cbn [columns rows].
  destruct (columns t) as [|h hs] eqn:Ec; [reflexivity|].
  destruct (rows t) as [|x xs] eqn:Er; [congruence|]. cbn [app].
  change (x :: xs ++ x :: xs) with ((x :: xs) ++ (x :: xs)).
  unfold df_rows. cbn [columns rows]. rewrite Ec, Er, map_app.
  rewrite duplicated_sum_double by apply row_eqb_refl.
  rewrite length_map. reflexivity.
Qed.

Lemma dup_rows_le (t : table) :
  (df_duplicated_sum t <= match columns t with [] => 0 | _ => length (rows t) end)%nat.
Proof.
  unfold df_duplicated_sum. destruct (columns t) as [|h hs] eqn:Ec; [lia|].
  destruct (rows t) as [|x xs] eqn:Er; [lia|].
  unfold duplicated_sum. etransitivity; [apply dups_from_le|].
  unfold df_rows. rewrite length_map, Er. reflexivity.
Qed.

Lemma columns_from_double (t : table) (j : nat) (hs : list (string * kind)) :
  columns_from (double_rows t) j hs =
  map (fun c => mk_column (cname c) (ckind c) (cvals c ++ cvals c))
      (columns_from t j hs).
Proof.
  revert j. induction hs as [|[n k] hs IH]; intros j; cbn; [reflexivity|].
  rewrite IH. unfold col_cells, double_rows. cbn [rows]. rewrite map_app.
  reflexivity.
Qed.

Lemma col_dups_double (c : column) :
  col_duplicate_values (mk_column (cname c) (ckind c) (cvals c ++ cvals c)) =
  (col_duplicate_values c +
   (if is_object (ckind c) then length (cvals c) else 0))%nat.
Proof.
  unfold col_duplicate_values. cbn [ckind cvals].
  destruct (is_object (ckind c)); [|reflexivity].
  apply duplicated_sum_double, cell_eqb_refl.
Qed.

Lemma col_dups_le (c : column) :
  (col_duplicate_values c <=
   (if is_object (ckind c) then length (cvals c) else 0))%nat.
Proof.
  unfold col_duplicate_values. destruct (is_object (ckind c)); [|lia].
  apply dups_from_le.
Qed.

Lemma text_dups_double (t : table) :
  list_sum (map col_duplicate_values (df_columns (double_rows t))) =
  (list_sum (map col_duplicate_values (df_columns t)) +
   text_weight (df_columns t))%nat.
Proof.
  unfold df_columns. replace (columns (double_rows t)) with (columns t) by reflexivity.
  rewrite columns_from_double. unfold text_weight.
  induction (columns_from t 0 (columns t)) as [|c cs IH];
    cbn [map list_sum fold_right]; [reflexivity|].
  unfold list_sum in IH. rewrite IH, col_dups_double. lia.
Qed.

Lemma text_dups_le (cols : list column) :
  (list_sum (map col_duplicate_values cols) <= text_weight cols)%nat.
Proof.
  unfold text_weight. induction cols as [|c cs IH];
    cbn [map list_sum fold_right]; [lia|].
  unfold list_sum in IH. pose proof (col_dups_le c). lia.
Qed.

Lemma text_weight_nil (t : table) :
  columns t = [] -> text_weight (df_columns t) = 0%nat.
Proof. intros E. unfold df_columns. rewrite E. reflexivity. Qed.

Lemma text_dups_nil (t : table) :
  columns t = [] -> list_sum (map col_duplicate_values (df_columns t)) = 0%nat.
Proof. intros E. unfold df_columns. rewrite E. reflexivity. Qed.

Lemma n2q_add (a b : nat) : n2q (a + b) == n2q a + n2q b.
Proof. unfold n2q. rewrite Nat2Z.inj_add, inject_Z_plus. reflexivity. Qed.

Lemma frac_double_le (a w b : nat) :
  (0 < b)%nat -> (a <= w)%nat ->
  n2q a / n2q b <= n2q (a + w) / n2q (b + b).
Proof.
  intros Hb Haw.
  assert (Pb : 0 < n2q b) by (apply n2q_pos; lia).
  apply Qle_shift_div_l; [apply n2q_pos; lia|].
  rewrite !n2q_add.
  assert (E : n2q a / n2q b * (n2q b + n2q b) == n2q a + n2q a)
    by (field; intros Z; rewrite Z in Pb; apply (Qlt_irrefl 0); exact Pb).
  rewrite E. pose proof (n2q_le _ _ Haw). lra.
Qed.

Lemma uniqueness_formula (cy : Z) (t : table) (r : report) :
  assess_data_quality cy t = Some r -> (0 < length (rows t))%nat ->
  uniqueness_score r =
  Qmax 0 (100 - n2q (df_duplicated_sum t) / n2q (length (rows t)) * 100 -
          n2q (list_sum (map col_duplicate_values (df_columns t))) /
          n2q (if Nat.ltb 0 (length (rows t) * length (columns t))
               then (length (rows t) * length (columns t))%nat else 1%nat) * 50).
Proof.
  intros H Hn. assess_cases H; cbn [uniqueness_score]; try reflexivity.
  all: apply Nat.ltb_ge in Hrows; lia.
Qed.
(** The overall score with and without the timeliness score. *)
Lemma overall_mean_cases (cy : Z) (t : table) (r : report) :
  assess_data_quality cy t = Some r ->
  (timeliness_score r = None ->
   overall_score r ==
   (completeness_score r + consistency_score r + uniqueness_score r +
    validity_score r + accuracy_score r) / 5) /\
  (forall s, timeliness_score r = Some s ->
   overall_score r ==
   (completeness_score r + consistency_score r + uniqueness_score r +
    validity_score r + accuracy_score r + s) / 6).
Proof.
  intros H. assess_cases H;
  cbn [overall_score completeness_score consistency_score uniqueness_score
       validity_score accuracy_score timeliness_score];
  split; intros; try discriminate.
  all: try match goal with E : Some _ = Some _ |- _ => injection E as <- end.
  1: apply mean6.
  all: apply mean5.
Qed.

End Bounds.

(** ** Lemmas on the further properties *)

Section S.
Context `{Py : PyPrims}.

Lemma dups_first_free {A} (eqb : A -> A -> bool) (x : A) (l : list A) :
  (duplicated_sum eqb (x :: l) <= length l)%nat.
Proof. unfold duplicated_sum. cbn. apply dups_from_le. Qed.

Lemma df_dups_lt (t : table) :
  (0 < length (rows t))%nat -> (df_duplicated_sum t < length (rows t))%nat.
Proof.
  intros Hn. unfold df_duplicated_sum.
  destruct (columns t) as [|h hs] eqn:Ec; [lia|].
  destruct (rows t) as [|x xs] eqn:Er; [cbn in Hn; lia|].
  unfold df_rows. rewrite Er. cbn [map].
  match goal with
  | |- (duplicated_sum _ (?a :: ?l) < _)%nat =>
      pose proof (dups_first_free row_eqb a l) as H
  end.
  rewrite length_map in H. eapply Nat.le_lt_trans; [exact H|]. rewrite ?Er. cbn [length]. apply Nat.lt_succ_diag_r.
Qed.

End S.



Section Years.
Context `{Py : PyPrims}.
Hypothesis to_datetime_pointwise :
  forall vs ys, py_to_datetime_years vs = Some ys -> length ys = length vs.








End Years.


Section RowOrder.
Context `{Py : PyPrims}.

Lemma count_if_perm {A} (p : A -> bool) (l l' : list A) :
  Permutation l l' -> count_if p l = count_if p l'.
Proof.
  unfold count_if. induction 1; cbn.
  - reflexivity.
  - destruct (p x); cbn; congruence.
  - destruct (p x), (p y); reflexivity.
  - congruence.
Qed.

Lemma dups_seen_ext {A} (eqb : A -> A -> bool) (s1 s2 l : list A) :
  (forall x, existsb (eqb x) s1 = existsb (eqb x) s2) ->
  dups_from eqb s1 l = dups_from eqb s2 l.
Proof.
  revert s1 s2. induction l as [|x l IH]; intros s1 s2 Hs; cbn; [reflexivity|].
  rewrite Hs. f_equal. apply IH. intros y. cbn. rewrite Hs. reflexivity.
Qed.

Lemma existsb_eqb_trans {A} (eqb : A -> A -> bool)
    (Htrans : forall x y z, eqb x y = true -> eqb x z = eqb y z)
    (x y : A) (seen : list A) :
  eqb x y = true -> existsb (eqb x) seen = existsb (eqb y) seen.
Proof.
  intros Exy. induction seen as [|z seen IH]; cbn; [reflexivity|].
  rewrite (Htrans x y z Exy), IH. reflexivity.
Qed.

Lemma dups_from_perm {A} (eqb : A -> A -> bool)
    (Hsym : forall x y, eqb x y = eqb y x)
    (Htrans : forall x y z, eqb x y = true -> eqb x z = eqb y z)
    (l l' : list A) :
  Permutation l l' -> forall seen, dups_from eqb seen l = dups_from eqb seen l'.
Proof.
  induction 1 as [|x l l' _ IH|x y l|l l' l'' _ IH1 _ IH2]; intros seen.
  - reflexivity.
  - cbn. rewrite IH. reflexivity.
  - cbn.
    rewrite (dups_seen_ext eqb (x :: y :: seen) (y :: x :: seen) l)
      by (intros z; cbn; destruct (eqb z x), (eqb z y); reflexivity).
    rewrite (Hsym y x).
    destruct (eqb x y) eqn:Exy.
    + rewrite (existsb_eqb_trans eqb Htrans x y seen Exy). cbn. lia.
    + cbn. lia.
  - rewrite IH1, IH2. reflexivity.
Qed.

Lemma value_eqb_sym (a b : value) : value_eqb a b = value_eqb b a.
Proof.
  destruct a as [x|x], b as [y|y]; cbn; try reflexivity.
  - destruct (Qeq_bool x y) eqn:E1, (Qeq_bool y x) eqn:E2; try reflexivity.
    + apply Qeq_bool_iff in E1. symmetry in E1. apply Qeq_bool_iff in E1. congruence.
    + apply Qeq_bool_iff in E2. symmetry in E2. apply Qeq_bool_iff in E2. congruence.
  - apply String.eqb_sym.
Qed.

Lemma value_eqb_trans (a b c : value) :
  value_eqb a b = true -> value_eqb a c = value_eqb b c.
Proof.
  destruct a as [x|x], b as [y|y], c as [z|z]; cbn; try discriminate;
    intros E; try reflexivity.
  - apply Qeq_bool_iff in E.
    destruct (Qeq_bool x z) eqn:E1, (Qeq_bool y z) eqn:E2; try reflexivity.
    + apply Qeq_bool_iff in E1. exfalso.
      assert (y == z) by (rewrite <- E; exact E1).
      apply Qeq_bool_iff in H. congruence.
    + apply Qeq_bool_iff in E2. exfalso.
      assert (x == z) by (rewrite E; exact E2).
      apply Qeq_bool_iff in H. congruence.
  - apply String.eqb_eq in E. subst. reflexivity.
Qed.

Lemma cell_eqb_sym (a b : cell) : cell_eqb a b = cell_eqb b a.
Proof. destruct a, b; cbn; try reflexivity. apply value_eqb_sym. Qed.

Lemma cell_eqb_trans (a b c : cell) :
  cell_eqb a b = true -> cell_eqb a c = cell_eqb b c.
Proof.
  destruct a, b, c; cbn; try discriminate; try reflexivity.
  apply value_eqb_trans.
Qed.

Lemma row_eqb_sym (a b : list cell) : row_eqb a b = row_eqb b a.
Proof.
  revert b. induction a as [|x a IH]; intros [|y b]; cbn; try reflexivity.
  rewrite cell_eqb_sym, IH. reflexivity.
Qed.

Lemma row_eqb_trans (a b c : list cell) :
  row_eqb a b = true -> row_eqb a c = row_eqb b c.
Proof.
  revert b c. induction a as [|x a IH]; intros [|y b] [|z c]; cbn;
    try discriminate; try reflexivity.
  intros E. apply andb_prop in E as [E1 E2].
  rewrite (cell_eqb_trans _ _ _ E1), (IH _ _ E2). reflexivity.
Qed.

Lemma col_cells_perm (t t' : table) (j : nat) :
  Permutation (rows t) (rows t') -> Permutation (col_cells t j) (col_cells t' j).
Proof. intros P. unfold col_cells. apply Permutation_map. exact P. Qed.

Lemma list_max_perm (l l' : list nat) : Permutation l l' -> list_max l = list_max l'.
Proof.
  intros P. unfold list_max. induction P; cbn [fold_right]; lia.
Qed.

(** The validity issues of a column as a function of its non-missing
    values. *)
Lemma col_validity_issues_nn (c : column) :
  col_validity_issues c =
  let nn := dropna (cvals c) in
  ((if is_numeric (ckind c) then count_if is_inf nn else 0) +
   (if is_numeric (ckind c) then
      if existsb (fun k => contains k (lower (cname c))) validity_keywords
      then count_if (fun v => q_lt (num_of v) 0) nn
      else 0
    else 0) +
   (if is_object (ckind c) then
      let lens := map (fun v => py_len (py_str v)) nn in
      if 1000 <? list_max lens then count_if (fun n => 1000 <? n) lens
      else 0
    else 0))%nat.
Proof.
  unfold col_validity_issues. destruct (dropna (cvals c)); [|reflexivity].
  destruct (ckind c); cbn [is_numeric is_object count_if filter length map list_max fold_right];
    try destruct (existsb (fun k => contains k (lower (cname c))) validity_keywords);
    reflexivity.
Qed.

Lemma dropna_perm (l l' : list cell) : Permutation l l' -> Permutation (dropna l) (dropna l').
Proof. intros P. unfold dropna. apply Permutation_flat_map. exact P. Qed.

Lemma col_validity_perm (n : string) (k : kind) (l l' : list cell) :
  Permutation l l' ->
  col_validity_issues (mk_column n k l) = col_validity_issues (mk_column n k l').
Proof.
  intros P. rewrite !col_validity_issues_nn. cbn [cvals cname ckind].
  pose proof (dropna_perm _ _ P) as D.
  rewrite (count_if_perm _ _ _ D), (count_if_perm (fun v => q_lt (num_of v) 0) _ _ D).
  rewrite (list_max_perm _ _ (Permutation_map (fun v => py_len (py_str v)) D)).
  rewrite (count_if_perm _ _ _ (Permutation_map (fun v => py_len (py_str v)) D)).
  reflexivity.
Qed.

Lemma col_dups_perm (n : string) (k : kind) (l l' : list cell) :
  Permutation l l' ->
  col_duplicate_values (mk_column n k l) = col_duplicate_values (mk_column n k l').
Proof.
  intros P. unfold col_duplicate_values, duplicated_sum. cbn [ckind cvals].
  destruct (is_object k); [|reflexivity].
  apply dups_from_perm; [exact cell_eqb_sym|exact cell_eqb_trans|exact P].
Qed.

Lemma columns_sum_perm (f : column -> nat)
    (Hf : forall n k l l', Permutation l l' ->
          f (mk_column n k l) = f (mk_column n k l'))
    (t t' : table) (j : nat) (hs : list (string * kind)) :
  Permutation (rows t) (rows t') ->
  list_sum (map f (columns_from t j hs)) = list_sum (map f (columns_from t' j hs)).
Proof.
  intros P. revert j. induction hs as [|[n k] hs IH]; intros j; cbn; [reflexivity|].
  rewrite (Hf n k _ _ (col_cells_perm t t' j P)). unfold list_sum in IH.
  rewrite IH. reflexivity.
Qed.

Lemma df_dups_perm (t t' : table) :
  columns t = columns t' -> Permutation (rows t) (rows t') ->
  df_duplicated_sum t = df_duplicated_sum t'.
Proof.
  intros C P. unfold df_duplicated_sum, df_rows. rewrite <- C.
  destruct (columns t) as [|h hs]; [reflexivity|].
  destruct (rows t) as [|x xs] eqn:Er.
  - apply Permutation_nil in P. rewrite P. reflexivity.
  - destruct (rows t') as [|y ys] eqn:Er'.
    + apply Permutation_sym, Permutation_nil in P. discriminate.
    + unfold duplicated_sum. apply dups_from_perm;
        [exact row_eqb_sym|exact row_eqb_trans|].
      apply Permutation_map. exact P.
Qed.
End RowOrder.

Section Names.

Lemma list_ascii_of_string_append (s1 s2 : string) :
  list_ascii_of_string (s1 ++ s2) = list_ascii_of_string s1 ++ list_ascii_of_string s2.
Proof. induction s1 as [|c s1 IH]; cbn; [reflexivity|]. rewrite IH. reflexivity. Qed.

Lemma split_first_app (sep : ascii) (l1 l2 : list ascii) :
  forallb (fun c => negb (Ascii.eqb c sep)) l1 = true ->
  split_first sep (l1 ++ sep :: l2) = Some (l1, l2).
Proof.
  induction l1 as [|c l1 IH]; cbn; intros H.
  - rewrite Ascii.eqb_refl. reflexivity.
  - apply andb_prop in H as [H1 H2]. apply negb_true_iff in H1.
    rewrite H1, (IH H2). reflexivity.
Qed.

Lemma split_first_none (sep : ascii) (l : list ascii) :
  forallb (fun c => negb (Ascii.eqb c sep)) l = true -> split_first sep l = None.
Proof.
  induction l as [|c l IH]; cbn; intros H; [reflexivity|].
  apply andb_prop in H as [H1 H2]. apply negb_true_iff in H1.
  rewrite H1, (IH H2). reflexivity.
Qed.

Lemma forallb_rev {A} (p : A -> bool) (l : list A) : forallb p (rev l) = forallb p l.
Proof.
  induction l as [|x l IH]; cbn; [reflexivity|].
  rewrite forallb_app, IH. cbn. rewrite andb_true_r, andb_comm. reflexivity.
Qed.

Lemma no_dot_forallb (s : string) :
  has_dot s = false ->
  forallb (fun c => negb (Ascii.eqb c ".")) (list_ascii_of_string s) = true.
Proof.
  unfold has_dot. induction (list_ascii_of_string s) as [|c l IH];
    cbn [forallb existsb]; [reflexivity|].
  intros H. apply orb_false_iff in H as [H1 H2].
  rewrite Ascii.eqb_sym, H1, (IH H2). reflexivity.
Qed.

Lemma name_ext_last (base e : string) :
  has_dot e = false -> name_ext (base ++ String "." e) = Some (lower e).
Proof.
  intros He. unfold name_ext, split_last.
  rewrite list_ascii_of_string_append. cbn [list_ascii_of_string].
  rewrite rev_app_distr. cbn [rev]. rewrite <- app_assoc. cbn [app].
  rewrite split_first_app
    by (rewrite forallb_rev; apply no_dot_forallb; exact He).
  rewrite !rev_involutive, string_of_list_ascii_of_string. reflexivity.
Qed.

Lemma name_ext_no_dot (s : string) : has_dot s = false -> name_ext s = None.
Proof.
  intros H. unfold name_ext, split_last.
  rewrite split_first_none; [reflexivity|].
  rewrite forallb_rev. apply no_dot_forallb. exact H.
Qed.

Lemma has_dot_nonempty (s : string) : has_dot s = true -> s <> "".
Proof. intros H ->. discriminate. Qed.

Lemma py_or_some (o f : string) : o <> "" -> py_or (Some o) f = o.
Proof.
  intros H. unfold py_or. destruct (String.eqb_spec o ""); [contradiction|reflexivity].
Qed.

Lemma allowed_in (e : string) :
  existsb (String.eqb e) allowed_extensions = true <-> In e allowed_extensions.
Proof.
  rewrite existsb_exists. split.
  - intros [x [Hx E]]. apply String.eqb_eq in E. subst. exact Hx.
  - intros H. exists e. split; [exact H|apply String.eqb_refl].
Qed.

Lemma allowed_file_ext (f : string) :
  allowed_file f = true -> exists e, name_ext f = Some e /\ In e allowed_extensions.
Proof.
  unfold allowed_file. destruct (name_ext f) as [e|]; [|discriminate].
  intros H. exists e. split; [reflexivity|apply allowed_in; exact H].
Qed.

Lemma allowed_nonempty (e : string) : In e allowed_extensions -> e <> "".
Proof. intros H ->. cbn in H. intuition discriminate. Qed.

Lemma prefix_substring (p c : string) (n : nat) :
  (String.length p <= n)%nat -> prefix p (substring 0 n c) = prefix p c.
Proof.
  revert c n. induction p as [|a p IH]; intros c n Hn.
  - destruct n, c; reflexivity.
  - destruct n as [|n]; [cbn in Hn; lia|].
    destruct c as [|b c]; [reflexivity|].
    cbn [substring prefix]. destruct (ascii_dec a b); [|reflexivity].
    apply IH. cbn in Hn. lia.
Qed.

Lemma substring_app_prefix (n : nat) (c d : string) :
  (n <= String.length c)%nat -> substring 0 n (c ++ d)%string = substring 0 n c.
Proof.
  revert n. induction c as [|a c IH]; intros n Hn.
  - cbn in Hn. assert (n = 0%nat) as -> by lia. destruct d; reflexivity.
  - destruct n as [|n]; [reflexivity|]. cbn in Hn |- *.
    rewrite IH by lia. reflexivity.
Qed.

Lemma sniff_raise (file : option string) (m : string) :
  sniff_ext file = Raise m ->
  m = cannot_determine_msg /\ (file = None \/ file = Some "").
Proof.
  destruct file as [c|]; cbn; [|intros H; injection H as <-; tauto].
  destruct (prefix "PK" _); [discriminate|].
  destruct (prefix ole_magic _); [discriminate|].
  destruct c as [|a c]; cbn.
  - intros H. injection H as <-. tauto.
  - destruct (_ || _); discriminate.
Qed.

Lemma sniff_ok (file : option string) (e : string) :
  sniff_ext file = Ok e -> In e allowed_extensions.
Proof.
  destruct file as [c|]; cbn; [|discriminate].
  destruct (prefix "PK" _); [intros H; injection H as <-; cbn; tauto|].
  destruct (prefix ole_magic _); [intros H; injection H as <-; cbn; tauto|].
  destruct (substring 0 8 c) as [|a s]; [discriminate|].
  destruct (_ || _); intros H; injection H as <-; cbn; tauto.
Qed.

Lemma resolve_raise (file : option string) (fn : string) (orig : option string)
    (m : string) :
  resolve_ext file fn orig = Raise m -> sniff_ext file = Raise m.
Proof.
  unfold resolve_ext.
  destruct (match name_ext (py_or orig fn) with Some e => Some e | None => name_ext fn end)
    as [e|]; [|tauto].
  destruct (String.eqb e ""); [tauto|discriminate].
Qed.
End Names.

Lemma assess_dims `{Py : PyPrims} (cy : Z) (t : table) (r : report) :
  assess_data_quality cy t = Some r ->
  total_rows r = length (rows t) /\ total_columns r = length (columns t).
Proof. intros H. assess_cases H; split; reflexivity. Qed.

Ltac evaluate_tail :=
  repeat match goal with
         | |- context [match ?x with Some _ => _ | None => _ end] => destruct x eqn:?
         | |- context [match ?x with Ok _ => _ | Raise _ => _ end] => destruct x eqn:?
         | |- context [if ?x then _ else _] => destruct x eqn:?
         end.

(** ** Claims *)

(** C1: every dimension score the engine produces (completeness,
    consistency, uniqueness, validity, accuracy, and timeliness when it is
    not null) lies in [0, 100]. *)
Theorem scores_in_range `{Py : PyPrims} (cy : Z) (t : table) (r : report) :
  assess_data_quality cy t = Some r ->
  0 <= completeness_score r <= 100 /\
  0 <= consistency_score r <= 100 /\
  0 <= uniqueness_score r <= 100 /\
  0 <= validity_score r <= 100 /\
  0 <= accuracy_score r <= 100 /\
  (forall s, timeliness_score r = Some s -> 0 <= s <= 100).
Proof.
  intros H. assess_cases H;
  cbn [completeness_score consistency_score uniqueness_score validity_score
       accuracy_score timeliness_score];
  pose proof (missing_le_cells t) as Hm;
  pose proof (total_cells_pos (length (rows t)) (length (columns t))) as Hc;
  pose proof (frac_le_1 _ _ Hc Hm) as H1;
  repeat match goal with
         | |- context [n2q ?a / n2q ?b] =>
             let F := fresh "F" in
             pose proof (frac_nonneg a b) as F;
             set (n2q a / n2q b) in *
         end;
  pose proof (n2q_nonneg (count_if col_type_inconsistent (df_columns t)));
  (split; [split; lra|]);
  do 4 (split; [apply qmax0_range; lra|]);
  intros s Hs; (injection Hs as <-; apply qmax0_range; lra) || discriminate.
Qed.

(** C2: [overall_score] is the mean of exactly the non-null dimension
    scores: the five always-applicable ones when timeliness is null, those
    five and the timeliness score otherwise. *)
Theorem overall_is_mean `{Py : PyPrims} (cy : Z) (t : table) (r : report) :
  assess_data_quality cy t = Some r ->
  match timeliness_score r with
  | None =>
      overall_score r ==
      (completeness_score r + consistency_score r + uniqueness_score r +
       validity_score r + accuracy_score r) / 5
  | Some s =>
      overall_score r ==
      (completeness_score r + consistency_score r + uniqueness_score r +
       validity_score r + accuracy_score r + s) / 6
  end.
Proof.
  intros H. assess_cases H;
  cbn [overall_score completeness_score consistency_score uniqueness_score
       validity_score accuracy_score timeliness_score];
  [apply mean6 | apply mean5 ..].
Qed.

(** C3: timeliness is null (and [timeliness_applicable] is false, and the
    overall score is the mean of the five other scores alone) exactly when
    no year column was found or the table has no rows; otherwise it is
    [max(0, 100 - 1.5 * (100 * old_years_count / total_rows))] and enters
    the overall mean. *)
Theorem timeliness_applicability `{Py : PyPrims} (cy : Z) (t : table)
    (r : report) :
  assess_data_quality cy t = Some r ->
  (timeliness_score r = None <->
   year_columns_found r = 0%nat \/ total_rows r = 0%nat) /\
  (timeliness_applicable r = false <-> timeliness_score r = None) /\
  (forall s, timeliness_score r = Some s ->
   s == Qmax 0 (100 - 100 * n2q (old_years_count r) / n2q (total_rows r) * (3#2))) /\
  (timeliness_score r = None ->
   overall_score r ==
   (completeness_score r + consistency_score r + uniqueness_score r +
    validity_score r + accuracy_score r) / 5) /\
  (forall s, timeliness_score r = Some s ->
   overall_score r ==
   (completeness_score r + consistency_score r + uniqueness_score r +
    validity_score r + accuracy_score r + s) / 6).
Proof.
  intros H. pose proof (overall_mean_cases cy t r H) as Avg.
  cut ((timeliness_score r = None <->
        year_columns_found r = 0%nat \/ total_rows r = 0%nat) /\
       (timeliness_applicable r = false <-> timeliness_score r = None) /\
       (forall s, timeliness_score r = Some s ->
        s == Qmax 0 (100 - 100 * n2q (old_years_count r) / n2q (total_rows r) * (3#2))));
    [tauto|clear Avg].
  assess_cases H; cbn [timeliness_score year_columns_found total_rows
    timeliness_applicable old_years_count];
  apply Nat.ltb_lt in Hrows || apply Nat.ltb_ge in Hrows;
  apply Nat.ltb_lt in Hyears || apply Nat.ltb_ge in Hyears.
  all: split; [split; intros; first [discriminate | reflexivity | lia]|];
  (split; [split; intros; first [discriminate | reflexivity]|]);
  intros s Hs; try discriminate; injection Hs as <-.
  assert (E : forall a b : Q, ~ b == 0 -> a / b * 100 == 100 * a / b)
    by (intros a b Hb; field; exact Hb).
  rewrite E by (apply n2q_nz; lia). reflexivity.
Qed.

(** C10: [missing_values] is the sum of the [missing] counts of the
    [column_details] entries. *)
Theorem missing_values_consistent `{Py : PyPrims} (cy : Z) (t : table)
    (r : report) :
  assess_data_quality cy t = Some r ->
  missing_values r = list_sum (map cd_missing (column_details r)).
Proof.
  intros H. assess_cases H; cbn [missing_values column_details];
  rewrite map_map; reflexivity.
Qed.

(** C5: the email-format check of a column runs exactly when its first
    non-missing stringified value contains ['@']; it then counts every
    non-missing value that fails the email pattern, and otherwise the column
    adds nothing; [consistency_issues] sums these counts over the columns. *)
Theorem email_check_first_value `{Py : PyPrims} (cy : Z) (t : table)
    (r : report) :
  assess_data_quality cy t = Some r ->
  consistency_issues r = list_sum (map col_email_issues (df_columns t)) /\
  forall c : column,
    col_email_issues c =
    match dropna (cvals c) with
    | [] => 0%nat
    | v0 :: _ =>
        if contains "@" (py_str v0)
        then count_if (fun v => negb (email_match (py_str v))) (dropna (cvals c))
        else 0%nat
    end.
Proof.
  intros H. assess_cases H.
  all: cbn [consistency_issues]; split; [reflexivity|].
  all: intros c; unfold col_email_issues.
  all: destruct (dropna (cvals c)) as [|v0 vs]; [reflexivity|].
  all: cbn [map hd]; destruct (contains "@" (py_str v0)); [|reflexivity].
  all: exact (count_if_map _ py_str (v0 :: vs)).
Qed.

(** C6: on a table with at least one row, repeating every row once (so
    doubling the row count) never raises [uniqueness_score]. *)
Theorem doubling_rows_never_raises_uniqueness `{Py : PyPrims} (cy : Z)
    (t : table) (r r2 : report) :
  rows t <> [] ->
  assess_data_quality cy t = Some r ->
  assess_data_quality cy (double_rows t) = Some r2 ->
  uniqueness_score r2 <= uniqueness_score r.
Proof.
  intros Hne H1 H2.
  assert (Hn : (0 < length (rows t))%nat)
    by (destruct (rows t); [congruence|cbn; lia]).
  assert (Hlen : length (rows (double_rows t)) =
                 (length (rows t) + length (rows t))%nat)
    by (unfold double_rows; cbn [rows]; apply length_app).
  assert (Hn2 : (0 < length (rows (double_rows t)))%nat) by lia.
  rewrite (uniqueness_formula _ _ _ H1 Hn), (uniqueness_formula _ _ _ H2 Hn2).
  apply Q.max_le_compat_l.
  rewrite (dup_rows_double t Hne), text_dups_double, Hlen.
  replace (columns (double_rows t)) with (columns t) by reflexivity.
  pose proof (dup_rows_le t) as Hd.
  pose proof (text_dups_le (df_columns t)) as Hv.
  assert (Row : n2q (df_duplicated_sum t) / n2q (length (rows t)) <=
                n2q (df_duplicated_sum t +
                     match columns t with [] => 0 | _ => length (rows t) end) /
                n2q (length (rows t) + length (rows t)))
    by (apply frac_double_le; lia).
  destruct (columns t) as [|h hs] eqn:Ec.
  - rewrite (text_dups_nil t Ec), (text_weight_nil t Ec) in *.
    cbn [length]. rewrite !Nat.mul_0_r. cbn [Nat.ltb Nat.leb Nat.add].
    set (x := n2q (df_duplicated_sum t) / n2q (length (rows t))) in *.
    set (y := n2q (df_duplicated_sum t + 0) / n2q (length (rows t) + length (rows t))) in *.
    set (z := n2q 0 / n2q 1). lra.
  - set (m := length (h :: hs)).
    assert (Hm : (0 < m)%nat) by (unfold m; cbn; lia).
    assert (Hpos : (0 < length (rows t) * m)%nat) by nia.
    assert (Hpos2 : (0 < (length (rows t) + length (rows t)) * m)%nat) by nia.
    apply Nat.ltb_lt in Hpos, Hpos2. rewrite Hpos, Hpos2.
    rewrite Nat.mul_add_distr_r.
    assert (Cell : n2q (list_sum (map col_duplicate_values (df_columns t))) /
                   n2q (length (rows t) * m) <=
                   n2q (list_sum (map col_duplicate_values (df_columns t)) +
                        text_weight (df_columns t)) /
                   n2q (length (rows t) * m + length (rows t) * m))
      by (apply frac_double_le; [apply Nat.ltb_lt; exact Hpos|exact Hv]).
    revert Row Cell.
    generalize (n2q (df_duplicated_sum t) / n2q (length (rows t))).
    generalize (n2q (list_sum (map col_duplicate_values (df_columns t))) /
                n2q (length (rows t) * m)).
    intros a b. intros Hr Hc. lra.
Qed.

(** Scenario A: [[{"age": -5, "name": "Bob"}, {"age": 30, "name":
    "Alice"}]]. *)
Lemma scenario_a_validity `{Py : PyPrims} (cy : Z) (r : report) :
  assess_data_quality cy scenario_a = Some r ->
  validity_issues r = 1%nat /\ validity_score r == 75.
Proof.
  intros H. assess_cases H; cbn [validity_issues validity_score];
  try discriminate.
  all: split; [reflexivity|]. all: vm_compute; reflexivity.
Qed.

(** C8: a numeric column whose lower-cased name contains "age", "count" or
    "quantity" adds one validity issue per negative non-missing value (on top
    of its infinite values, of which a table of finite numbers has none), and
    [validity_issues] sums the columns' issues; on the table
    [[{"age": -5, "name": "Bob"}, {"age": 30, "name": "Alice"}]] the
    validity analyzer flags exactly one issue and scores 75. *)
Theorem negative_counts_flagged `{Py : PyPrims} (cy : Z) (t : table)
    (r : report) :
  assess_data_quality cy t = Some r ->
  (validity_issues r = list_sum (map col_validity_issues (df_columns t)) /\
  forall c : column,
    is_numeric (ckind c) = true ->
    existsb (fun k => contains k (lower (cname c))) validity_keywords = true ->
    col_validity_issues c =
    (count_if is_inf (dropna (cvals c)) +
     count_if (fun v => q_lt (num_of v) 0) (dropna (cvals c)))%nat) /\
  (t = scenario_a -> validity_issues r = 1%nat /\ validity_score r == 75).
Proof.
  intros H. split; [|intros ->; exact (scenario_a_validity cy r H)].
  assess_cases H.
  all: cbn [validity_issues]; split; [reflexivity|].
  all: intros c Hnum Hkw; unfold col_validity_issues.
  all: destruct (dropna (cvals c)) as [|v0 vs]; [reflexivity|].
  all: rewrite Hnum, Hkw; destruct (ckind c); try discriminate; cbn; lia.
Qed.

(** C9: a column adds to [accuracy_issues] only when it is numeric, has
    more than ten non-missing values and a positive IQR; it then adds the
    number of its values strictly outside [[Q1 - 3 IQR, Q3 + 3 IQR]], and
    otherwise nothing. *)
Theorem outlier_contribution `{Py : PyPrims} (cy : Z) (t : table)
    (r : report) :
  assess_data_quality cy t = Some r ->
  accuracy_issues r = list_sum (map col_accuracy_issues (df_columns t)) /\
  forall c : column,
    let nn := map num_of (dropna (cvals c)) in
    let Q1 := quantile nn 1 4 in
    let Q3 := quantile nn 3 4 in
    col_accuracy_issues c =
    if is_numeric (ckind c) && (10 <? length nn)%nat && q_lt 0 (Q3 - Q1)
    then count_if (fun v => q_lt v (Q1 - 3 * (Q3 - Q1)) ||
                            q_lt (Q3 + 3 * (Q3 - Q1)) v) nn
    else 0%nat.
Proof.
  intros H. assess_cases H.
  all: cbn [accuracy_issues]; split; [reflexivity|].
  all: intros c; cbv zeta; unfold col_accuracy_issues.
  all: destruct (is_numeric (ckind c)); [|reflexivity]; cbn [andb].
  all: destruct (10 <? _)%nat; reflexivity.
Qed.

(** C4 (as amended): the engine reads the calendar year from the clock,
    so two runs on the same table can differ, but only in
    [old_years_count], [timeliness_score] and [overall_score]: whether
    timeliness applies and every other field depend on the table alone. *)
Theorem report_depends_on_clock_only_through_timeliness `{Py : PyPrims}
    (cy1 cy2 : Z) (t : table) (r1 r2 : report) :
  assess_data_quality cy1 t = Some r1 ->
  assess_data_quality cy2 t = Some r2 ->
  forget_clock r1 = forget_clock r2.
Proof.
  intros H1 H2.
  unfold assess_data_quality in H2.
  rewrite <- (year_columns_clock_free cy1 cy2) in H2.
  assess_cases H1; assess_cases H2; reflexivity.
Qed.

(** C4 counterexample: on the year column [[2024; 2023; 2010; 1995]] a run
    in 2025 and a run in 2010 give different reports, so the report is not a
    function of the table alone. *)
Lemma clock_counterexample :
  ~ (forall (cy1 cy2 : Z) (t : table) (r1 r2 : report),
       assess_data_quality (Py := DemoPrims.demo) cy1 t = Some r1 ->
       assess_data_quality (Py := DemoPrims.demo) cy2 t = Some r2 ->
       r1 = r2).
Proof.
  intros H.
  specialize (H 2025%Z 2010%Z scenario_c _ _ eq_refl eq_refl).
  vm_compute in H. discriminate H.
Qed.

(** C7 (as amended): the engine raises exactly when two columns share a
    label ([df[col].dtype] fails at line 84); on a table with distinct
    labels every divisor is non-zero (the cell count is floored at 1 and the
    row-count divisions are guarded) and it returns a report.  A column
    whose values are all missing adds nothing to the type, email, validity,
    accuracy and timeliness checks; in the text-column duplicate count of
    the uniqueness analyzer its [n] missing values count as [n - 1]
    duplicates. *)
Theorem shared_labels_and_all_missing_columns `{Py : PyPrims} (cy : Z) :
  (forall t : table,
     (exists r, assess_data_quality cy t = Some r) <->
     labels_distinct (map fst (columns t)) = true) /\
  (forall c : column, dropna (cvals c) = [] ->
   col_type_inconsistent c = false /\ col_email_issues c = 0%nat /\
   col_validity_issues c = 0%nat /\ col_accuracy_issues c = 0%nat /\
   col_timeliness cy c = (false, 0%nat) /\
   col_duplicate_values c =
     (if is_object (ckind c) then length (cvals c) - 1 else 0)%nat).
Proof.
  split; [intros t; apply assess_total|apply all_missing_column].
Qed.

(** C7 counterexample: the engine raises on [shared_label_table], whose two
    columns are both labelled [score]; and a text column of two missing
    cells adds one duplicate value, which lowers the uniqueness score of the
    table [notes_table] below 100. *)
Lemma totality_counterexample :
  ~ (forall t : table,
       exists r, assess_data_quality (Py := DemoPrims.demo) 2025 t = Some r) /\
  ~ (forall (cy : Z) (c : column), dropna (cvals c) = [] ->
       col_type_inconsistent (Py := DemoPrims.demo) c = false /\
       col_email_issues (Py := DemoPrims.demo) c = 0%nat /\
       col_duplicate_values c = 0%nat /\
       col_validity_issues (Py := DemoPrims.demo) c = 0%nat /\
       col_accuracy_issues c = 0%nat /\
       snd (col_timeliness (Py := DemoPrims.demo) cy c) = 0%nat) /\
  match assess_data_quality (Py := DemoPrims.demo) 2025 notes_table with
  | Some r => uniqueness_score r < 100
  | None => False
  end.
Proof.
  split.
  - intros H. destruct (H shared_label_table) as [r Hr].
    vm_compute in Hr. discriminate Hr.
  - split.
    + intros H.
      destruct (H 2025%Z (mk_column "notes" KText [None; None]) eq_refl)
        as (_ & _ & Hd & _).
      vm_compute in Hd. discriminate Hd.
    + vm_compute. reflexivity.
Qed.

(** ** Further properties of the engine, of [load_data] and of the web layer *)

(** X1: the missing percentage lies in [0, 100], and the completeness score is 100 exactly when no cell is missing. *)
Theorem completeness_percentage `{Py : PyPrims} (cy : Z) (t : table) (r : report) :
  assess_data_quality cy t = Some r ->
  0 <= missing_percentage r <= 100 /\
  (completeness_score r == 100 <-> missing_values r = 0%nat).
Proof.
  intros H.
  pose proof (missing_le_cells t) as Hm.
  pose proof (total_cells_pos (length (rows t)) (length (columns t))) as Hc.
  assess_cases H; cbn [missing_percentage completeness_score missing_values];
  pose proof (frac_le_1 _ _ Hc Hm) as H1;
  pose proof (frac_nonneg (list_sum (map (fun c => count_missing (cvals c)) (df_columns t)))
    (if Nat.ltb 0 (length (rows t) * length (columns t))
       then (length (rows t) * length (columns t))%nat else 1%nat)) as H0;
  (split; [lra|]);
  revert H0 H1 Hm Hc;
  generalize (list_sum (map (fun c => count_missing (cvals c)) (df_columns t)));
  generalize (if Nat.ltb 0 (length (rows t) * length (columns t))
       then (length (rows t) * length (columns t))%nat else 1%nat);
  intros b a H0 H1 Hm Hc; split; intros E.
  all: try (subst a; unfold n2q at 1; cbn; unfold Qdiv; rewrite Qmult_0_l; lra).
  all: destruct a as [|a]; [reflexivity|exfalso].
  all: assert (P : 0 < n2q (S a) / n2q b)
         by (apply Qlt_shift_div_l; [apply n2q_pos; lia|];
             rewrite Qmult_0_l; apply n2q_pos; lia).
  all: lra.
Qed.

(** X2: with no rows, no row is a duplicate and the duplicate percentage is 0; otherwise fewer rows than there are are duplicates (the first row never is) and the duplicate percentage lies in [0, 100). *)
Theorem duplicate_rows_bounded `{Py : PyPrims} (cy : Z) (t : table) (r : report) :
  assess_data_quality cy t = Some r ->
  (total_rows r = 0%nat /\ duplicate_rows r = 0%nat /\ duplicate_percentage r == 0) \/
  ((0 < total_rows r)%nat /\ (duplicate_rows r < total_rows r)%nat /\
   0 <= duplicate_percentage r < 100).
Proof.
  intros H. assess_cases H; cbn [total_rows duplicate_rows duplicate_percentage].
  all: try (apply Nat.ltb_ge in Hrows; left;
            assert (E : length (rows t) = 0%nat) by lia;
            split; [exact E|split; [|reflexivity]];
            unfold df_duplicated_sum; destruct (columns t), (rows t);
            cbn in E; first [reflexivity | discriminate]).
  all: apply Nat.ltb_lt in Hrows; right; pose proof (df_dups_lt t Hrows) as D.
  all: split; [exact Hrows|split; [exact D|]].
  all: pose proof (frac_nonneg (df_duplicated_sum t) (length (rows t))) as F0.
  all: assert (F1 : n2q (df_duplicated_sum t) / n2q (length (rows t)) < 1)
         by (apply Qlt_shift_div_r; [apply n2q_pos; exact Hrows|];
             rewrite Qmult_1_l; unfold n2q, Qlt; cbn; lia).
  all: revert F0 F1; generalize (n2q (df_duplicated_sum t) / n2q (length (rows t))).
  all: intros q F0 F1; lra.
Qed.


(** X4: reordering the rows of a table leaves the missing values, the completeness, the duplicate rows and percentage, the uniqueness, the validity issues and the validity score unchanged. *)
Theorem row_order_invariance `{Py : PyPrims} (cy : Z) (t t' : table)
    (r r' : report) :
  columns t' = columns t -> Permutation (rows t) (rows t') ->
  assess_data_quality cy t = Some r -> assess_data_quality cy t' = Some r' ->
  missing_values r = missing_values r' /\
  completeness_score r = completeness_score r' /\
  duplicate_rows r = duplicate_rows r' /\
  duplicate_percentage r = duplicate_percentage r' /\
  uniqueness_score r = uniqueness_score r' /\
  validity_issues r = validity_issues r' /\
  validity_score r = validity_score r'.
Proof.
  intros C P H1 H2.
  pose proof (Permutation_length P) as Lr.
  assert (Mis : list_sum (map (fun c => count_missing (cvals c)) (df_columns t)) =
                list_sum (map (fun c => count_missing (cvals c)) (df_columns t'))).
  { unfold df_columns. rewrite C. apply columns_sum_perm; [|exact P].
    intros n k l l' Q. apply count_if_perm. exact Q. }
  assert (DV : list_sum (map col_duplicate_values (df_columns t)) =
               list_sum (map col_duplicate_values (df_columns t'))).
  { unfold df_columns. rewrite C. apply columns_sum_perm; [|exact P].
    exact col_dups_perm. }
  assert (VI : list_sum (map col_validity_issues (df_columns t)) =
               list_sum (map col_validity_issues (df_columns t'))).
  { unfold df_columns. rewrite C. apply columns_sum_perm; [|exact P].
    exact col_validity_perm. }
  pose proof (df_dups_perm t t' (eq_sym C) P) as D.
  assess_cases H1; assess_cases H2;
  cbn [missing_values completeness_score duplicate_rows duplicate_percentage
       uniqueness_score validity_issues validity_score];
  rewrite <- ?Lr, ?C, <- ?Mis, <- ?DV, <- ?VI, <- ?D in *;
  try congruence.
  all: repeat split; reflexivity.
Qed.

(** X5: [allowed_file] judges a name by the text after its last dot, lower-cased, against csv, xlsx, xls and json; a name without a dot is never allowed. *)
Theorem allowed_file_last_extension (base e : string) :
  has_dot e = false ->
  allowed_file (base ++ String "." e) =
    existsb (String.eqb (lower e)) allowed_extensions /\
  (forall f, has_dot f = false -> allowed_file f = false).
Proof.
  intros He. split.
  - unfold allowed_file. rewrite name_ext_last by exact He. reflexivity.
  - intros f Hf. unfold allowed_file. rewrite name_ext_no_dot by exact Hf.
    reflexivity.
Qed.

(** X6: [load_data] takes the extension of [original_filename or filename]; an empty extension falls back to sniffing the content, a missing one to the extension of [filename]; sniffing only yields an allowed extension, and fails only on an unreadable or empty file. *)
Theorem extension_resolution (file : option string) (filename : string)
    (original : option string) :
  (forall e, name_ext (py_or original filename) = Some e -> e <> "" ->
   resolve_ext file filename original = Ok e) /\
  (name_ext (py_or original filename) = Some "" ->
   resolve_ext file filename original = sniff_ext file) /\
  (name_ext (py_or original filename) = None ->
   resolve_ext file filename original =
   match name_ext filename with
   | Some e => if String.eqb e "" then sniff_ext file else Ok e
   | None => sniff_ext file
   end) /\
  (forall e, sniff_ext file = Ok e -> In e allowed_extensions) /\
  (forall m, sniff_ext file = Raise m ->
   m = cannot_determine_msg /\ (file = None \/ file = Some "")).
Proof.
  unfold resolve_ext. refine (conj _ (conj _ (conj _ (conj _ _)))).
  - intros e He Hne. rewrite He. destruct (String.eqb_spec e ""); [contradiction|].
    reflexivity.
  - intros He. rewrite He. reflexivity.
  - intros He. rewrite He. reflexivity.
  - apply sniff_ok.
  - intros m H. apply (sniff_raise _ _ H).
Qed.

(** X7: the type guess from the content reads at most the first eight
    bytes: content that agrees with [c] on them is typed as [c] is. *)
Theorem sniff_reads_eight_bytes (c d : string) :
  (8 <= String.length c)%nat ->
  sniff_ext (Some (c ++ d)%string) = sniff_ext (Some c).
Proof.
  intros Hc. unfold sniff_ext. rewrite (substring_app_prefix 8 c d Hc).
  reflexivity.
Qed.

(** X8: a non-empty extension outside csv, xlsx, xls and json makes [load_data] raise the unsupported-file-type error naming that extension, wrapped in the loading-error prefix. *)
Theorem unsupported_extension `{LP : LoadPrims} (file : option string)
    (filename : string) (original : option string) (e : string) :
  name_ext (py_or original filename) = Some e -> e <> "" ->
  ~ In e allowed_extensions ->
  load_data file filename original = Raise (load_error_prefix ++ unsupported_msg e)%string.
Proof.
  intros He Hne Hin. unfold load_data, resolve_ext. rewrite He.
  destruct (String.eqb_spec e ""); [contradiction|].
  unfold read_by_ext.
  destruct (String.eqb_spec e "csv"); [subst; cbn in Hin; tauto|].
  destruct (String.eqb_spec e "xlsx"); [subst; cbn in Hin; tauto|].
  destruct (String.eqb_spec e "xls"); [subst; cbn in Hin; tauto|].
  destruct (String.eqb_spec e "json"); [subst; cbn in Hin; tauto|].
  reflexivity.
Qed.

(** X9: every error [load_data] raises is either the cannot-determine-type error, for an unreadable or empty file, or a message starting with the loading-error prefix. *)
Theorem load_data_errors `{LP : LoadPrims} (file : option string)
    (filename : string) (original : option string) (m : string) :
  load_data file filename original = Raise m ->
  (m = cannot_determine_msg /\ (file = None \/ file = Some "")) \/
  exists m', m = (load_error_prefix ++ m')%string.
Proof.
  unfold load_data.
  destruct (resolve_ext file filename original) as [e|m0] eqn:R.
  - destruct (read_by_ext e file) as [df|m']; [discriminate|].
    intros H. injection H as <-. right. exists m'. reflexivity.
  - intros H. injection H as <-. left. apply sniff_raise.
    apply (resolve_raise _ _ _ _ R).
Qed.

(** X10: on an object without tuples and without numpy scalars other than
    [np.integer] and [np.floating] ([convertible]), [convert_nan_to_none]
    leaves no NaN or infinite float and no numpy scalar in any dictionary
    value or list item. *)
Theorem convert_output_clean (o : pyobj) :
  convertible o = true ->
  json_clean (convert_nan_to_none o) = true.
Proof.
  induction o as [o Ho|l Hl|kv Hkv] using pyobj_ind'; intros Nt.
  - destruct o; try contradiction; cbn in Nt |- *; try reflexivity; try discriminate.
    all: destruct (float_isnan f || float_isinf f) eqn:E; cbn; rewrite ?E; reflexivity.
  - cbn in Nt |- *. induction Hl as [|x l Hx _ IH]; cbn in Nt |- *; [reflexivity|].
    apply andb_prop in Nt as [N1 N2].
    rewrite (Hx N1). exact (IH N2).
  - cbn in Nt |- *. induction Hkv as [|[k v] kv Hv _ IH]; cbn in Nt |- *; [reflexivity|].
    cbn in Hv. apply andb_prop in Nt as [N1 N2].
    rewrite (Hv N1). exact (IH N2).
Qed.

(** X11: on a [convertible] object, [convert_nan_to_none] returns its input
    unchanged exactly when the input is already free of NaN, infinities and
    numpy scalars. *)
Theorem convert_fixpoints (o : pyobj) :
  convertible o = true ->
  (convert_nan_to_none o = o <-> json_clean o = true).
Proof.
  induction o as [o Ho|l Hl|kv Hkv] using pyobj_ind'; intros Nt.
  - destruct o; try contradiction; cbn in Nt |- *; try (split; reflexivity);
      try discriminate.
    + destruct (float_isnan f || float_isinf f); cbn; split; congruence.
    + split; discriminate.
    + destruct (float_isnan f || float_isinf f); split; discriminate.
  - cbn in Nt |- *. split.
    + intros E. injection E as E. clear -Hl E Nt.
      induction Hl as [|x l Hx _ IH]; cbn in Nt |- *; [reflexivity|].
      cbn in E. injection E as E1 E2. apply andb_prop in Nt as [N1 N2].
      apply andb_true_intro. split; [apply (Hx N1); exact E1|apply (IH N2); exact E2].
    + intros E. f_equal. clear -Hl E Nt.
      induction Hl as [|x l Hx _ IH]; cbn in Nt |- *; [reflexivity|].
      cbn in E. apply andb_prop in E as [E1 E2]. apply andb_prop in Nt as [N1 N2].
      rewrite (proj2 (Hx N1) E1), (IH N2 E2). reflexivity.
  - cbn in Nt |- *. split.
    + intros E. injection E as E. clear -Hkv E Nt.
      induction Hkv as [|[k v] kv Hv _ IH]; cbn in Nt |- *; [reflexivity|].
      cbn in E, Hv. injection E as E1 E2. apply andb_prop in Nt as [N1 N2].
      apply andb_true_intro. split; [apply (Hv N1); exact E1|apply (IH N2); exact E2].
    + intros E. f_equal. clear -Hkv E Nt.
      induction Hkv as [|[k v] kv Hv _ IH]; cbn in Nt |- *; [reflexivity|].
      cbn in E, Hv. apply andb_prop in E as [E1 E2]. apply andb_prop in Nt as [N1 N2].
      rewrite (proj2 (Hv N1) E1), (IH N2 E2). reflexivity.
Qed.

(** X12: [evaluate] answers with status 400 exactly when no file is sent, the file name is empty, or the name has a dot and fails [allowed_file]. *)
Theorem evaluate_rejects_400 `{Py : PyPrims} `{LP : LoadPrims} `{WP : WebPrims}
    (cy : Z) (req : option upload) :
  (exists m, evaluate cy req = RError 400 m) <->
  req = None \/
  exists file, req = Some file /\
    (up_filename file = Some "" \/
     exists f, up_filename file = Some f /\ has_dot f = true /\ allowed_file f = false).
Proof.
  unfold evaluate. destruct req as [file|].
  2:{ split; [intros _; left; reflexivity|intros _; eexists; reflexivity]. }
  destruct file as [[f|] content]; cbn [up_filename up_content].
  - destruct (String.eqb_spec f "") as [->|Hf].
    + split; [intros _; right; eexists; split; [reflexivity|left; reflexivity]
             |intros _; eexists; reflexivity].
    + destruct (has_dot f) eqn:Hd; destruct (allowed_file f) eqn:Ha; cbn [andb negb].
      3, 4: split; [intros [m Hm]; revert Hm; evaluate_tail; discriminate
                   |intros [E|[file' [E [E'|[f' [E1 [E2 E3]]]]]]];
                    [discriminate|injection E as <-; cbn in E'; congruence
                    |injection E as <-; cbn in E1; congruence]].
      * split; [intros [m Hm]; revert Hm; evaluate_tail; discriminate
               |intros [E|[file' [E [E'|[f' [E1 [E2 E3]]]]]]];
                [discriminate|injection E as <-; cbn in E'; congruence
                |injection E as <-; cbn in E1; congruence]].
      * split; [intros _; right; eexists; split; [reflexivity|right; exists f; tauto]
               |intros _; eexists; reflexivity].
  - split; [intros [m Hm]; revert Hm; evaluate_tail; discriminate
           |intros [E|[file' [E [E'|[f' [E1 [E2 E3]]]]]]];
            [discriminate|injection E as <-; cbn in E'; congruence
            |injection E as <-; cbn in E1; congruence]].
Qed.

(** X13: an upload whose name has a dot is either rejected as not allowed, or has an allowed extension and [load_data] reads it with the reader of that extension. *)
Theorem dotted_upload_type `{Py : PyPrims} `{LP : LoadPrims} `{WP : WebPrims}
    (cy : Z) (file : upload) (f : string) :
  up_filename file = Some f -> has_dot f = true ->
  evaluate cy (Some file) = RError 400 not_allowed_msg \/
  exists e, In e allowed_extensions /\ name_ext f = Some e /\
    load_data (Some (up_content file)) (secure_filename f) (Some f) =
    match read_by_ext e (Some (up_content file)) with
    | Ok df => Ok df
    | Raise m => Raise (load_error_prefix ++ m)%string
    end.
Proof.
  intros Hf Hd. destruct (allowed_file f) eqn:Ha.
  - right. destruct (allowed_file_ext f Ha) as [e [He Hin]].
    exists e. split; [exact Hin|split; [exact He|]].
    unfold load_data, resolve_ext.
    rewrite (py_or_some f _ (has_dot_nonempty f Hd)), He.
    destruct (String.eqb_spec e "") as [E|_]; [exfalso; exact (allowed_nonempty e Hin E)|].
    reflexivity.
  - left. unfold evaluate. rewrite Hf.
    destruct (String.eqb_spec f "") as [->|_]; [discriminate|].
    rewrite Hd, Ha. reflexivity.
Qed.

(** X14: an upload whose non-empty name has no dot is not rejected with status 400, and its file type is sniffed from its content, when [secure_filename] adds no dot. *)
Theorem dotless_upload_typed_by_content `{Py : PyPrims} `{LP : LoadPrims}
    `{WP : WebPrims} (cy : Z) (file : upload) (f : string) :
  up_filename file = Some f -> f <> "" -> has_dot f = false ->
  has_dot (secure_filename f) = false ->
  (forall m, evaluate cy (Some file) <> RError 400 m) /\
  resolve_ext (Some (up_content file)) (secure_filename f) (Some f) =
    sniff_ext (Some (up_content file)).
Proof.
  intros Hf Hne Hd Hs. split.
  - intros m. unfold evaluate. rewrite Hf.
    destruct (String.eqb_spec f "") as [E|_]; [contradiction|].
    rewrite Hd. cbn [andb]. evaluate_tail; discriminate.
  - unfold resolve_ext. rewrite (py_or_some f _ Hne), (name_ext_no_dot f Hd),
      (name_ext_no_dot _ Hs). reflexivity.
Qed.

(** X15: a report returned by [evaluate] was computed by
    [assess_data_quality] from the table [load_data] read from the upload;
    that table has at least one row and one column, the report counts them,
    and the preview columns are its column labels. *)
Theorem evaluate_report_of_loaded_table `{Py : PyPrims} `{LP : LoadPrims}
    `{WP : WebPrims} (cy : Z) (req : option upload) (r : report)
    (cols : list string) :
  evaluate cy req = RReport r cols ->
  exists file df,
    let original :=
      match up_filename file with Some f => f | None => "uploaded_file" end in
    req = Some file /\
    load_data (Some (up_content file)) (secure_filename original)
              (Some original) = Ok df /\
    assess_data_quality cy df = Some r /\
    cols = map fst (columns df) /\
    total_rows r = length (rows df) /\ total_columns r = length (columns df) /\
    (0 < length (rows df))%nat /\ (0 < length (columns df))%nat.
Proof.
  unfold evaluate. destruct req as [file|]; [|discriminate]. cbv zeta.
  destruct (match up_filename file with
            | Some f => String.eqb f ""
            | None => false
            end); [discriminate|].
  destruct (match up_filename file with
            | Some f => has_dot f && negb (allowed_file f)
            | None => false
            end); [discriminate|].
  destruct (save_error _); [discriminate|].
  destruct (load_data _ _ _) as [df|m] eqn:L; [|discriminate].
  destruct (df_empty df) eqn:Em; [discriminate|].
  destruct (assess_data_quality cy df) as [r0|] eqn:A; [|discriminate].
  destruct (publish_error r0); [discriminate|].
  intros E. injection E as <- <-.
  exists file, df. cbv zeta.
  destruct (assess_dims _ _ _ A) as [D1 D2].
  unfold df_empty in Em. apply orb_false_iff in Em as [E1 E2].
  apply Nat.eqb_neq in E1, E2.
  refine (conj eq_refl (conj L (conj A (conj eq_refl (conj D1 (conj D2 _)))))).
  lia.
Qed.

(** ** Witnesses

    Each claim theorem applied to a concrete table, its hypotheses
    discharged by evaluation with the demonstration primitives. *)

#[local] Existing Instance DemoPrims.demo.

Lemma scores_in_range_witness :
  exists r, assess_data_quality (Py := DemoPrims.demo) 2025 scenario_a = Some r /\
  (0 <= completeness_score r <= 100 /\
   0 <= consistency_score r <= 100 /\
   0 <= uniqueness_score r <= 100 /\
   0 <= validity_score r <= 100 /\
   0 <= accuracy_score r <= 100 /\
   (forall s, timeliness_score r = Some s -> 0 <= s <= 100)).
Proof.
  eexists; split; [vm_compute; reflexivity|].
  apply (scores_in_range 2025 scenario_a); vm_compute; reflexivity.
Defined.

Lemma overall_is_mean_witness :
  exists r, assess_data_quality (Py := DemoPrims.demo) 2025 scenario_c = Some r /\
  match timeliness_score r with
  | None =>
      overall_score r ==
      (completeness_score r + consistency_score r + uniqueness_score r +
       validity_score r + accuracy_score r) / 5
  | Some s =>
      overall_score r ==
      (completeness_score r + consistency_score r + uniqueness_score r +
       validity_score r + accuracy_score r + s) / 6
  end.
Proof.
  eexists; split; [vm_compute; reflexivity|].
  apply (overall_is_mean 2025 scenario_c); vm_compute; reflexivity.
Defined.

Lemma timeliness_applicability_witness :
  exists r, assess_data_quality (Py := DemoPrims.demo) 2025 scenario_c = Some r /\
  (timeliness_score r = None <->
   year_columns_found r = 0%nat \/ total_rows r = 0%nat) /\
  (timeliness_applicable r = false <-> timeliness_score r = None) /\
  (forall s, timeliness_score r = Some s ->
   s == Qmax 0 (100 - 100 * n2q (old_years_count r) / n2q (total_rows r) * (3#2))) /\
  (timeliness_score r = None ->
   overall_score r ==
   (completeness_score r + consistency_score r + uniqueness_score r +
    validity_score r + accuracy_score r) / 5) /\
  (forall s, timeliness_score r = Some s ->
   overall_score r ==
   (completeness_score r + consistency_score r + uniqueness_score r +
    validity_score r + accuracy_score r + s) / 6).
Proof.
  eexists; split; [vm_compute; reflexivity|].
  apply (timeliness_applicability 2025 scenario_c); vm_compute; reflexivity.
Defined.

Lemma missing_values_consistent_witness :
  exists r, assess_data_quality (Py := DemoPrims.demo) 2025 notes_table = Some r /\
  missing_values r = list_sum (map cd_missing (column_details r)).
Proof.
  eexists; split; [vm_compute; reflexivity|].
  apply (missing_values_consistent 2025 notes_table); vm_compute; reflexivity.
Defined.

Lemma email_check_first_value_witness :
  exists r, assess_data_quality (Py := DemoPrims.demo) 2025 scenario_b = Some r /\
  (consistency_issues r = list_sum (map col_email_issues (df_columns scenario_b)) /\
   forall c : column,
     col_email_issues c =
     match dropna (cvals c) with
     | [] => 0%nat
     | v0 :: _ =>
         if contains "@" (py_str v0)
         then count_if (fun v => negb (email_match (py_str v))) (dropna (cvals c))
         else 0%nat
     end).
Proof.
  eexists; split; [vm_compute; reflexivity|].
  apply (email_check_first_value 2025 scenario_b); vm_compute; reflexivity.
Defined.

Lemma doubling_rows_never_raises_uniqueness_witness :
  exists r r2,
    assess_data_quality (Py := DemoPrims.demo) 2025 scenario_a = Some r /\
    assess_data_quality (Py := DemoPrims.demo) 2025 (double_rows scenario_a) = Some r2 /\
    uniqueness_score r2 <= uniqueness_score r.
Proof.
  do 2 eexists; split; [vm_compute; reflexivity|].
  split; [vm_compute; reflexivity|].
  apply (doubling_rows_never_raises_uniqueness 2025 scenario_a);
    [discriminate | vm_compute; reflexivity | vm_compute; reflexivity].
Defined.

Lemma negative_counts_flagged_witness :
  exists r, assess_data_quality (Py := DemoPrims.demo) 2025 scenario_a = Some r /\
  validity_issues r = 1%nat /\ validity_score r == 75.
Proof.
  eexists; split; [vm_compute; reflexivity|].
  refine (proj2 (negative_counts_flagged 2025 scenario_a _ _) eq_refl).
  vm_compute; reflexivity.
Defined.

Lemma outlier_contribution_witness :
  exists r, assess_data_quality (Py := DemoPrims.demo) 2025 scenario_e = Some r /\
  accuracy_issues r = 1%nat /\
  accuracy_issues r = list_sum (map col_accuracy_issues (df_columns scenario_e)).
Proof.
  eexists; split; [vm_compute; reflexivity|].
  split; [vm_compute; reflexivity|].
  refine (proj1 (outlier_contribution 2025 scenario_e _ _)).
  vm_compute; reflexivity.
Defined.

Lemma report_depends_on_clock_only_through_timeliness_witness :
  exists r1 r2,
    assess_data_quality (Py := DemoPrims.demo) 2025 scenario_c = Some r1 /\
    assess_data_quality (Py := DemoPrims.demo) 2010 scenario_c = Some r2 /\
    forget_clock r1 = forget_clock r2.
Proof.
  do 2 eexists; split; [vm_compute; reflexivity|].
  split; [vm_compute; reflexivity|].
  apply (report_depends_on_clock_only_through_timeliness 2025 2010 scenario_c);
    vm_compute; reflexivity.
Defined.

Lemma shared_labels_and_all_missing_columns_witness :
  (exists r, assess_data_quality (Py := DemoPrims.demo) 2025 scenario_a = Some r) /\
  col_duplicate_values (mk_column "notes" KText [None; None]) = 1%nat.
Proof.
  split.
  - apply (proj1 (shared_labels_and_all_missing_columns (Py := DemoPrims.demo) 2025)).
    vm_compute; reflexivity.
  - exact (proj2 (proj2 (proj2 (proj2 (proj2
      (proj2 (shared_labels_and_all_missing_columns (Py := DemoPrims.demo) 2025)
         (mk_column "notes" KText [None; None]) eq_refl)))))).
Defined.

#[local] Existing Instance DemoLoad.demo.
#[local] Existing Instance DemoWeb.demo.

Lemma completeness_percentage_witness :
  exists r, assess_data_quality (Py := DemoPrims.demo) 2025 notes_table = Some r /\
  (0 <= missing_percentage r <= 100 /\
   (completeness_score r == 100 <-> missing_values r = 0%nat)).
Proof.
  eexists; split; [vm_compute; reflexivity|].
  apply (completeness_percentage 2025 notes_table); vm_compute; reflexivity.
Defined.

Lemma duplicate_rows_bounded_witness :
  exists r, assess_data_quality (Py := DemoPrims.demo) 2025 scenario_d = Some r /\
  ((total_rows r = 0%nat /\ duplicate_rows r = 0%nat /\ duplicate_percentage r == 0) \/
   ((0 < total_rows r)%nat /\ (duplicate_rows r < total_rows r)%nat /\
    0 <= duplicate_percentage r < 100)).
Proof.
  eexists; split; [vm_compute; reflexivity|].
  apply (duplicate_rows_bounded 2025 scenario_d); vm_compute; reflexivity.
Defined.


Lemma row_order_invariance_witness :
  exists r r',
    assess_data_quality (Py := DemoPrims.demo) 2025 scenario_a = Some r /\
    assess_data_quality (Py := DemoPrims.demo) 2025 scenario_a_swapped = Some r' /\
    (missing_values r = missing_values r' /\
     completeness_score r = completeness_score r' /\
     duplicate_rows r = duplicate_rows r' /\
     duplicate_percentage r = duplicate_percentage r' /\
     uniqueness_score r = uniqueness_score r' /\
     validity_issues r = validity_issues r' /\
     validity_score r = validity_score r').
Proof.
  do 2 eexists; split; [vm_compute; reflexivity|].
  split; [vm_compute; reflexivity|].
  apply (row_order_invariance 2025 scenario_a scenario_a_swapped);
    [reflexivity | apply perm_swap | vm_compute; reflexivity | vm_compute; reflexivity].
Defined.

Lemma allowed_file_last_extension_witness :
  has_dot "CSV" = false /\
  (allowed_file ("report.v2" ++ String "." "CSV")%string =
     existsb (String.eqb (lower "CSV")) allowed_extensions /\
   (forall f, has_dot f = false -> allowed_file f = false)).
Proof.
  split; [reflexivity|].
  apply (allowed_file_last_extension "report.v2" "CSV"); reflexivity.
Defined.

Lemma unsupported_extension_witness :
  load_data (Some "x") "notes.TXT" None =
  Raise (load_error_prefix ++ unsupported_msg "txt")%string.
Proof.
  apply (unsupported_extension (Some "x") "notes.TXT" None "txt");
    [vm_compute; reflexivity | discriminate | simpl; intuition discriminate].
Defined.

Lemma load_data_errors_witness :
  exists m, load_data None "upload" None = Raise m /\
  ((m = cannot_determine_msg /\ (@None string = None \/ @None string = Some "")) \/
   exists m', m = (load_error_prefix ++ m')%string).
Proof.
  eexists; split; [vm_compute; reflexivity|].
  apply (load_data_errors None "upload" None); vm_compute; reflexivity.
Defined.

Lemma convert_output_clean_witness :
  convertible sample_report_obj = true /\
  json_clean (convert_nan_to_none sample_report_obj) = true.
Proof.
  split; [vm_compute; reflexivity|].
  apply convert_output_clean; vm_compute; reflexivity.
Defined.

Lemma convert_fixpoints_witness :
  convertible sample_report_obj = true /\
  (convert_nan_to_none sample_report_obj = sample_report_obj <->
   json_clean sample_report_obj = true).
Proof.
  split; [vm_compute; reflexivity|].
  apply convert_fixpoints; vm_compute; reflexivity.
Defined.

Lemma dotted_upload_type_witness :
  evaluate 2025 (Some (mk_upload (Some "data.csv") "age,name")) =
    RError 400 not_allowed_msg \/
  exists e, In e allowed_extensions /\ name_ext "data.csv" = Some e /\
    load_data (Some "age,name") (secure_filename "data.csv") (Some "data.csv") =
    match read_by_ext e (Some "age,name") with
    | Ok df => Ok df
    | Raise m => Raise (load_error_prefix ++ m)%string
    end.
Proof.
  apply (dotted_upload_type 2025 (mk_upload (Some "data.csv") "age,name") "data.csv");
    reflexivity.
Defined.

Lemma dotless_upload_typed_by_content_witness :
  (forall m, evaluate 2025 (Some (mk_upload (Some "README") "[]")) <> RError 400 m) /\
  resolve_ext (Some "[]") (secure_filename "README") (Some "README") =
    sniff_ext (Some "[]").
Proof.
  apply (dotless_upload_typed_by_content 2025 (mk_upload (Some "README") "[]") "README");
    [reflexivity | discriminate | reflexivity | vm_compute; reflexivity].
Defined.

Lemma evaluate_report_of_loaded_table_witness :
  exists r cols,
    evaluate 2025 (Some (mk_upload (Some "people.csv") people_csv)) = RReport r cols /\
    exists file df,
      let original :=
        match up_filename file with Some f => f | None => "uploaded_file" end in
      Some (mk_upload (Some "people.csv") people_csv) = Some file /\
      load_data (Some (up_content file)) (secure_filename original)
                (Some original) = Ok df /\
      assess_data_quality 2025 df = Some r /\
      cols = map fst (columns df) /\
      total_rows r = length (rows df) /\ total_columns r = length (columns df) /\
      (0 < length (rows df))%nat /\ (0 < length (columns df))%nat.
Proof.
  do 2 eexists; split; [vm_compute; reflexivity|].
  apply (evaluate_report_of_loaded_table 2025
           (Some (mk_upload (Some "people.csv") people_csv)));
    vm_compute; reflexivity.
Defined.

Lemma sniff_reads_eight_bytes_witness :
  sniff_ext (Some ("id,score" ++ newline ++ "1,7")%string) = sniff_ext (Some "id,score").
Proof.
  apply (sniff_reads_eight_bytes "id,score"); cbn; lia.
Defined.
